(** * dv_flow.libyosys.synth: script generation and output resolution

    A shallow embedding of [src/dv_flow/libyosys/synth.py]: the input
    classifier [_collect_rtl], the shared reader [_write_read_cmds], the seven
    task bodies ([Synth], [SynthIce40], [SynthXilinx], [SynthLattice],
    [SynthGowin], [FormalPrepare], [Script]) and the properties the
    specification states about them.

    Conventions of the embedding.
    - A Python [str] is a [string]; one [ascii] stands for one code point
      below 256.  Paths are POSIX paths ([os.path] is [posixpath]).
    - An optional parameter ([None] when absent) is an [option]; Python
      truthiness is written out ([truthy], [truthy_str], [py_or]).
    - The file object [fp] is the list of the strings passed to [fp.write],
      in order; the content of the file is their concatenation.
    - The three interactions with the outside world ([open(..., "w")],
      [await ctxt.exec(...)], [os.path.isfile(...)]) are the nodes of a
      small interaction type [Task]; [run] interprets a task in any world
      that implements the interface [Ctxt] and records a transcript.
    - [run] is the behaviour of a task once [open] has succeeded.  The
      worlds in which [open(script_path, "w")] may raise (a missing or
      unwritable run directory) implement [CtxtIO]; [run_io] interprets a
      task there, stops at the exception, and agrees with [run] whenever
      the script is written ([run_io_task]).  The attributes a task reads
      exist and have the types the source expects (the script body of the
      raw-script variant is a [str]). *)

From Stdlib Require Import String Ascii List Bool ZArith Lia Setoid.
Import ListNotations.
Open Scope string_scope.
Open Scope list_scope.

Set Implicit Arguments.

(* ------------------------------------------------------------------ *)
(** ** Python strings *)

Module Py.

(** The newline of ["...\n"]. *)
Definition nl : string := String "010" "".

(** [str.isspace] on the code points below 256: U+0009..U+000D,
    U+001C..U+0020, U+0085 and U+00A0. *)
Definition isspace (c : ascii) : bool :=
  let n := nat_of_ascii c in
  ((9 <=? n) && (n <=? 13) || (28 <=? n) && (n <=? 32)
   || (n =? 133) || (n =? 160))%nat.

Fixpoint lstrip (s : string) : string :=
  match s with
  | "" => ""
  | String c s' => if isspace c then lstrip s' else s
  end.

Fixpoint rev (s : string) : string :=
  match s with
  | "" => ""
  | String c s' => rev s' ++ String c ""
  end.

Definition rstrip (s : string) : string := rev (lstrip (rev s)).

(** [s.strip()] *)
Definition strip (s : string) : string := rstrip (lstrip s).

(** Truthiness of a [str]: the empty string is falsy. *)
Definition nonempty (s : string) : bool :=
  match s with "" => false | _ => true end.

(** [s.startswith(p)] *)
Definition startswith (p s : string) : bool := String.prefix p s.

(** [s.endswith("/")] *)
Fixpoint endswith_sep (s : string) : bool :=
  match s with
  | "" => false
  | String c "" => Ascii.eqb c "/"
  | String _ s' => endswith_sep s'
  end.

(** [s.split(" ")]: the fields between single spaces, empty ones kept. *)
Fixpoint words (s : string) : list string :=
  match s with
  | "" => [""]
  | String c s' =>
      if Ascii.eqb c " " then "" :: words s'
      else match words s' with
           | w :: ws => String c w :: ws
           | [] => [String c ""]
           end
  end.

(** [posixpath.join(a, b)] *)
Definition os_path_join (a b : string) : string :=
  if startswith "/" b then b
  else if negb (nonempty a) || endswith_sep a then a ++ b
  else a ++ "/" ++ b.

(** Truthiness of an optional flag ([None], [False], [True]). *)
Definition truthy (o : option bool) : bool :=
  match o with Some true => true | _ => false end.

(** Truthiness of an optional string ([None] or a [str]). *)
Definition truthy_str (o : option string) : bool :=
  match o with Some s => nonempty s | None => false end.

(** [x or d] for an optional string [x]. *)
Definition py_or (o : option string) (d : string) : string :=
  match o with
  | Some s => if nonempty s then s else d
  | None => d
  end.

(** [f"{x}"] for an optional string [x]. *)
Definition fmt (o : option string) : string :=
  match o with Some s => s | None => "None" end.

(** [list(x or [])] for an optional list [x]. *)
Definition list_or_empty (A : Type) (o : option (list A)) : list A :=
  match o with Some l => l | None => [] end.

(** [if b: cmd += frag] *)
Definition add_if (b : bool) (cmd frag : string) : string :=
  if b then cmd ++ frag else cmd.

End Py.
Import Py.

(* ------------------------------------------------------------------ *)
(** ** Data model *)

(** An element of [input.inputs], with the attributes [_collect_rtl] reads. *)
Record InputItem : Type := mkItem {
  item_type : string;           (* fs.type *)
  item_filetype : string;       (* fs.filetype *)
  item_basedir : string;        (* fs.basedir *)
  item_files : list string;     (* fs.files *)
  item_incdirs : list string    (* fs.incdirs *)
}.

(** [FileSet(src=, filetype=, basedir=, files=, attributes=)] as the tasks
    build it. *)
Record FileSet : Type := mkFileSet {
  src : string;
  filetype : string;
  basedir : string;
  files : list string;
  attributes : list string
}.

(** [TaskDataResult(status=, output=)] *)
Record TaskDataResult : Type := mkResult {
  status : Z;
  output : list FileSet
}.

(** [input.params]: the union of the attributes the seven tasks read; each
    task reads its own. *)
Record Params : Type := mkParams {
  top : option string;
  output_format : option string;
  device : option string;
  family : option string;
  flatten : option bool;
  nofsm : option bool;
  noabc : option bool;
  retime : option bool;
  dff : option bool;
  nocarry : option bool;
  nobram : option bool;
  dsp : option bool;
  nodsp : option bool;
  noiopad : option bool;
  noclkbuf : option bool;
  abc9 : option bool;
  bv : option bool;
  mem : option bool;
  wires : option bool;
  read_rtl : option bool;
  script : string;
  args : option (list string)
}.

(** The task input: [input.name], [input.rundir], [input.inputs],
    [input.params]. *)
Record TaskDataInput : Type := mkInput {
  name : string;
  rundir : string;
  inputs : list InputItem;
  params : Params
}.

(* ------------------------------------------------------------------ *)
(** ** Input classifier: [_collect_rtl] (lines 27-55) *)

Definition Sources : Type := list (string * bool).
Definition Classified : Type := (Sources * list string * list string)%type.

(** One iteration of [for fs in input.inputs], on the three accumulators. *)
Definition collect_one (acc : Classified) (fs : InputItem) : Classified :=
  let '(sources, incdirs, liberty_files) := acc in
  if negb (item_type fs =? "std.FileSet") then acc
  else
    let ft := item_filetype fs in
    if (ft =? "verilogSource") || (ft =? "systemVerilogSource") then
      let is_sv := (ft =? "systemVerilogSource") in
      let sources :=
        fold_left (fun acc f => acc ++ [(os_path_join (item_basedir fs) f, is_sv)])
                  (item_files fs) sources in
      let incdirs :=
        fold_left (fun acc d => acc ++ [os_path_join (item_basedir fs) d])
                  (item_incdirs fs) incdirs in
      (sources, incdirs, liberty_files)
    else if ft =? "verilogIncDir" then
      if nonempty (strip (item_basedir fs))
      then (sources, incdirs ++ [item_basedir fs], liberty_files)
      else acc
    else if (ft =? "verilogInclude") || (ft =? "systemVerilogInclude") then
      let incdirs :=
        fold_left (fun acc d => acc ++ [os_path_join (item_basedir fs) d])
                  (item_incdirs fs) incdirs in
      (sources, incdirs, liberty_files)
    else if ft =? "libertyLib" then
      let liberty_files :=
        fold_left (fun acc f => acc ++ [os_path_join (item_basedir fs) f])
                  (item_files fs) liberty_files in
      let liberty_files :=
        if match item_files fs with [] => true | _ => false end
           && nonempty (strip (item_basedir fs))
        then liberty_files ++ [item_basedir fs]
        else liberty_files in
      (sources, incdirs, liberty_files)
    else acc.

Definition _collect_rtl (inputs : list InputItem) : Classified :=
  fold_left collect_one inputs ([], [], []).

(** *** The classifier as section 4.1 of the specification words it:
    what one collection contributes to each of the three lists. *)
Module Spec.

Inductive Kind : Type :=
| RtlVerilog | RtlSystemVerilog | IncludeDirMarker | IncludeListMarker
| CellLibrary | Unrecognized.

Definition kind_of (fs : InputItem) : Kind :=
  if negb (item_type fs =? "std.FileSet") then Unrecognized
  else if item_filetype fs =? "verilogSource" then RtlVerilog
  else if item_filetype fs =? "systemVerilogSource" then RtlSystemVerilog
  else if item_filetype fs =? "verilogIncDir" then IncludeDirMarker
  else if item_filetype fs =? "verilogInclude" then IncludeListMarker
  else if item_filetype fs =? "systemVerilogInclude" then IncludeListMarker
  else if item_filetype fs =? "libertyLib" then CellLibrary
  else Unrecognized.

Definition blank (s : string) : bool := negb (nonempty (strip s)).

Definition sources_of (fs : InputItem) : Sources :=
  match kind_of fs with
  | RtlVerilog =>
      map (fun f => (os_path_join (item_basedir fs) f, false)) (item_files fs)
  | RtlSystemVerilog =>
      map (fun f => (os_path_join (item_basedir fs) f, true)) (item_files fs)
  | _ => []
  end.

Definition incdirs_of (fs : InputItem) : list string :=
  match kind_of fs with
  | RtlVerilog | RtlSystemVerilog | IncludeListMarker =>
      map (os_path_join (item_basedir fs)) (item_incdirs fs)
  | IncludeDirMarker =>
      if blank (item_basedir fs) then [] else [item_basedir fs]
  | _ => []
  end.

Definition libs_of (fs : InputItem) : list string :=
  match kind_of fs with
  | CellLibrary =>
      match item_files fs with
      | [] => if blank (item_basedir fs) then [] else [item_basedir fs]
      | fl => map (os_path_join (item_basedir fs)) fl
      end
  | _ => []
  end.

Definition classify (inputs : list InputItem) : Classified :=
  (flat_map sources_of inputs, flat_map incdirs_of inputs,
   flat_map libs_of inputs).

End Spec.

(* ------------------------------------------------------------------ *)
(** ** Script files and the shared reader *)

(** The file object of [with open(script_path, "w") as fp]: the strings
    written so far. *)
Definition File : Type := list string.

(** [fp.write(s)] *)
Definition fp_write (fp : File) (s : string) : File := fp ++ [s].

(** What the file holds when the [with] block closes it. *)
Definition content (fp : File) : string := String.concat "" fp.

(** [_write_read_cmds] (lines 58-64) *)
Definition _write_read_cmds (fp : File) (sources : Sources)
    (incdirs : list string) : File :=
  let fp :=
    fold_left (fun fp d => fp_write fp ("read_verilog -incdir " ++ d ++ nl))
              incdirs fp in
  fold_left (fun fp (s : string * bool) =>
               let '(path, is_sv) := s in
               let flag := if is_sv then " -sv" else "" in
               fp_write fp ("read_verilog" ++ flag ++ " " ++ path ++ nl))
            sources fp.

(** [for arg in extra_args: fp.write(arg + "\n")] *)
Definition write_extra_args (fp : File) (extra_args : list string) : File :=
  fold_left (fun fp arg => fp_write fp (arg ++ nl)) extra_args fp.

(** [input.params.output_format or "json"] of the five synthesis tasks. *)
Definition netlist_format (p : Params) : string :=
  py_or (output_format p) "json".

(** [out_file = f"netlist.{output_format}"] *)
Definition netlist_file (p : Params) : string :=
  "netlist." ++ netlist_format p.

(** [out_path = os.path.join(input.rundir, out_file)] *)
Definition netlist_path (p : Params) (rundir : string) : string :=
  os_path_join rundir (netlist_file p).

(** [([f"top={top}"] if top else [])] *)
Definition top_attr (p : Params) : list string :=
  if truthy_str (top p) then [("top=" ++ fmt (top p))%string] else [].

(* ------------------------------------------------------------------ *)
(** ** Directive composers *)

(** *** Generic synthesis: [Synth], lines 82-125 *)

(** Lines 88-98. *)
Definition Synth_synth_cmd (p : Params) : string :=
  let synth_cmd := "synth" in
  let synth_cmd :=
    add_if (truthy_str (top p)) synth_cmd (" -top " ++ fmt (top p)) in
  let synth_cmd := add_if (truthy (flatten p)) synth_cmd " -flatten" in
  let synth_cmd := add_if (truthy (nofsm p)) synth_cmd " -nofsm" in
  let synth_cmd := add_if (truthy (noabc p)) synth_cmd " -noabc" in
  let synth_cmd := add_if (truthy (retime p)) synth_cmd " -retime" in
  synth_cmd.

Definition Synth_script (c : Classified) (p : Params) (rundir : string)
    : File :=
  let '(sources, incdirs, liberty_files) := c in
  let output_format := netlist_format p in
  let extra_args := list_or_empty (args p) in
  let fp : File := [] in
  let fp := _write_read_cmds fp sources incdirs in
  let fp :=
    fold_left (fun fp lib => fp_write fp ("read_liberty -lib " ++ lib ++ nl))
              liberty_files fp in
  let fp := fp_write fp (Synth_synth_cmd p ++ nl) in
  let fp :=
    match liberty_files with
    | lib0 :: _ =>
        let fp := fp_write fp ("dfflibmap -liberty " ++ lib0 ++ nl) in
        fp_write fp ("abc -liberty " ++ lib0 ++ nl)
    | [] => fp
    end in
  let fp := fp_write fp ("opt_clean" ++ nl) in
  let fp :=
    match liberty_files with
    | lib0 :: _ => fp_write fp ("stat -liberty " ++ lib0 ++ nl)
    | [] => fp_write fp ("stat" ++ nl)
    end in
  let out_path := netlist_path p rundir in
  let fp :=
    if output_format =? "json" then
      fp_write fp ("write_json " ++ out_path ++ nl)
    else if output_format =? "verilog" then
      fp_write fp ("write_verilog " ++ out_path ++ nl)
    else if output_format =? "blif" then
      fp_write fp ("write_blif " ++ out_path ++ nl)
    else if output_format =? "edif" then
      fp_write fp ("write_edif " ++ out_path ++ nl)
    else if output_format =? "rtlil" then
      fp_write fp ("write_rtlil " ++ out_path ++ nl)
    else fp in
  write_extra_args fp extra_args.

(** *** Lattice iCE40: [SynthIce40], lines 161-189 *)

(** [device = input.params.device or "hx"] *)
Definition ice40_device (p : Params) : string := py_or (device p) "hx".

(** Lines 165-179: the directive before the output-format chain. *)
Definition SynthIce40_flags (p : Params) : string :=
  let synth_cmd := ("synth_ice40 -device " ++ ice40_device p)%string in
  let synth_cmd :=
    add_if (truthy_str (top p)) synth_cmd (" -top " ++ fmt (top p)) in
  let synth_cmd := add_if (truthy (dff p)) synth_cmd " -dff" in
  let synth_cmd := add_if (truthy (retime p)) synth_cmd " -retime" in
  let synth_cmd := add_if (truthy (nocarry p)) synth_cmd " -nocarry" in
  let synth_cmd := add_if (truthy (nobram p)) synth_cmd " -nobram" in
  let synth_cmd := add_if (truthy (dsp p)) synth_cmd " -dsp" in
  let synth_cmd := add_if (truthy (abc9 p)) synth_cmd " -abc9" in
  synth_cmd.

(** Lines 165-185. *)
Definition SynthIce40_synth_cmd (p : Params) (out_path : string) : string :=
  let output_format := netlist_format p in
  let synth_cmd := SynthIce40_flags p in
  if output_format =? "json" then synth_cmd ++ " -json " ++ out_path
  else if output_format =? "blif" then synth_cmd ++ " -blif " ++ out_path
  else if output_format =? "edif" then synth_cmd ++ " -edif " ++ out_path
  else synth_cmd.

Definition SynthIce40_script (c : Classified) (p : Params) (rundir : string)
    : File :=
  let '(sources, incdirs, _) := c in
  let extra_args := list_or_empty (args p) in
  let fp : File := [] in
  let fp := _write_read_cmds fp sources incdirs in
  let out_path := netlist_path p rundir in
  let fp := fp_write fp (SynthIce40_synth_cmd p out_path ++ nl) in
  write_extra_args fp extra_args.

(** *** Xilinx: [SynthXilinx], lines 228-260 *)

(** [family = input.params.family or "xc7"] *)
Definition xilinx_family (p : Params) : string := py_or (family p) "xc7".

(** Lines 232-250. *)
Definition SynthXilinx_flags (p : Params) : string :=
  let synth_cmd := ("synth_xilinx -family " ++ xilinx_family p)%string in
  let synth_cmd :=
    add_if (truthy_str (top p)) synth_cmd (" -top " ++ fmt (top p)) in
  let synth_cmd := add_if (truthy (flatten p)) synth_cmd " -flatten" in
  let synth_cmd := add_if (truthy (dff p)) synth_cmd " -dff" in
  let synth_cmd := add_if (truthy (retime p)) synth_cmd " -retime" in
  let synth_cmd := add_if (truthy (nobram p)) synth_cmd " -nobram" in
  let synth_cmd := add_if (truthy (nodsp p)) synth_cmd " -nodsp" in
  let synth_cmd := add_if (truthy (noiopad p)) synth_cmd " -noiopad" in
  let synth_cmd := add_if (truthy (noclkbuf p)) synth_cmd " -noclkbuf" in
  let synth_cmd := add_if (truthy (abc9 p)) synth_cmd " -abc9" in
  synth_cmd.

(** Lines 232-256. *)
Definition SynthXilinx_synth_cmd (p : Params) (out_path : string) : string :=
  let output_format := netlist_format p in
  let synth_cmd := SynthXilinx_flags p in
  if output_format =? "json" then synth_cmd ++ " -json " ++ out_path
  else if output_format =? "edif" then synth_cmd ++ " -edif " ++ out_path
  else if output_format =? "blif" then synth_cmd ++ " -blif " ++ out_path
  else synth_cmd.

Definition SynthXilinx_script (c : Classified) (p : Params) (rundir : string)
    : File :=
  let '(sources, incdirs, _) := c in
  let extra_args := list_or_empty (args p) in
  let fp : File := [] in
  let fp := _write_read_cmds fp sources incdirs in
  let out_path := netlist_path p rundir in
  let fp := fp_write fp (SynthXilinx_synth_cmd p out_path ++ nl) in
  write_extra_args fp extra_args.

(** *** Lattice ECP5 and relatives: [SynthLattice], lines 293-311 *)

(** [family = input.params.family or "ecp5"] *)
Definition lattice_family (p : Params) : string := py_or (family p) "ecp5".

(** Lines 297-303. *)
Definition SynthLattice_flags (p : Params) : string :=
  let synth_cmd := ("synth_lattice -family " ++ lattice_family p)%string in
  let synth_cmd :=
    add_if (truthy_str (top p)) synth_cmd (" -top " ++ fmt (top p)) in
  let synth_cmd := add_if (truthy (dff p)) synth_cmd " -dff" in
  let synth_cmd := add_if (truthy (retime p)) synth_cmd " -retime" in
  synth_cmd.

(** Lines 297-307. *)
Definition SynthLattice_synth_cmd (p : Params) (out_path : string) : string :=
  let output_format := netlist_format p in
  let synth_cmd := SynthLattice_flags p in
  if output_format =? "json" then synth_cmd ++ " -json " ++ out_path
  else if output_format =? "edif" then synth_cmd ++ " -edif " ++ out_path
  else synth_cmd.

Definition SynthLattice_script (c : Classified) (p : Params) (rundir : string)
    : File :=
  let '(sources, incdirs, _) := c in
  let extra_args := list_or_empty (args p) in
  let fp : File := [] in
  let fp := _write_read_cmds fp sources incdirs in
  let out_path := netlist_path p rundir in
  let fp := fp_write fp (SynthLattice_synth_cmd p out_path ++ nl) in
  write_extra_args fp extra_args.

(** *** Gowin: [SynthGowin], lines 341-355 *)

(** Lines 345-347. *)
Definition SynthGowin_flags (p : Params) : string :=
  let synth_cmd := "synth_gowin" in
  let synth_cmd :=
    add_if (truthy_str (top p)) synth_cmd (" -top " ++ fmt (top p)) in
  synth_cmd.

(** Lines 345-351. *)
Definition SynthGowin_synth_cmd (p : Params) (out_path : string) : string :=
  let output_format := netlist_format p in
  let synth_cmd := SynthGowin_flags p in
  if output_format =? "json" then synth_cmd ++ " -json " ++ out_path
  else if output_format =? "verilog" then synth_cmd ++ " -vout " ++ out_path
  else synth_cmd.

Definition SynthGowin_script (c : Classified) (p : Params) (rundir : string)
    : File :=
  let '(sources, incdirs, _) := c in
  let extra_args := list_or_empty (args p) in
  let fp : File := [] in
  let fp := _write_read_cmds fp sources incdirs in
  let out_path := netlist_path p rundir in
  let fp := fp_write fp (SynthGowin_synth_cmd p out_path ++ nl) in
  write_extra_args fp extra_args.

(** *** Formal model: [FormalPrepare], lines 387-416 *)

(** Lines 395-398, without the newline. *)
Definition FormalPrepare_hierarchy (p : Params) : string :=
  if truthy_str (top p) then "hierarchy -top " ++ fmt (top p)
  else "hierarchy -auto-top".

(** Lines 406-412. *)
Definition FormalPrepare_smt2_cmd (p : Params) : string :=
  let smt2_cmd := "write_smt2" in
  let smt2_cmd := add_if (truthy (bv p)) smt2_cmd " -bv" in
  let smt2_cmd := add_if (truthy (mem p)) smt2_cmd " -mem" in
  let smt2_cmd := add_if (truthy (wires p)) smt2_cmd " -wires" in
  smt2_cmd.

(** [out_path = os.path.join(input.rundir, "model.smt2")] *)
Definition model_path (rundir : string) : string :=
  os_path_join rundir "model.smt2".

(** Lines 389-393: the two reading loops of the formal task. *)
Definition FormalPrepare_reads (fp : File) (sources : Sources)
    (incdirs : list string) : File :=
  let fp :=
    fold_left (fun fp d => fp_write fp ("read_verilog -incdir " ++ d ++ nl))
              incdirs fp in
  fold_left (fun fp (s : string * bool) =>
               let '(path, is_sv) := s in
               let flag := if is_sv then " -sv" else "" in
               fp_write fp ("read_verilog -formal" ++ flag ++ " " ++ path ++ nl))
            sources fp.

Definition FormalPrepare_script (c : Classified) (p : Params)
    (rundir : string) : File :=
  let '(sources, incdirs, _) := c in
  let extra_args := list_or_empty (args p) in
  let fp : File := [] in
  let fp := FormalPrepare_reads fp sources incdirs in
  let fp := fp_write fp (FormalPrepare_hierarchy p ++ nl) in
  let fp := fp_write fp ("proc" ++ nl) in
  let fp := fp_write fp ("opt" ++ nl) in
  let fp := fp_write fp ("memory -nordff -nomap" ++ nl) in
  let fp := fp_write fp ("opt -fast" ++ nl) in
  let out_path := model_path rundir in
  let fp := fp_write fp (FormalPrepare_smt2_cmd p ++ " " ++ out_path ++ nl) in
  write_extra_args fp extra_args.

(** *** Raw script: [Script], lines 445-450 *)

(** [output_format = input.params.output_format or ""] *)
Definition script_format (p : Params) : string := py_or (output_format p) "".

Definition Script_script (c : Classified) (p : Params) (rundir : string)
    : File :=
  let '(sources, incdirs, liberty_files) := c in
  let fp : File := [] in
  let fp :=
    if truthy (read_rtl p) then
      let fp := _write_read_cmds fp sources incdirs in
      fold_left (fun fp lib => fp_write fp ("read_liberty -lib " ++ lib ++ nl))
                liberty_files fp
    else fp in
  fp_write fp (script p ++ nl).

(* ------------------------------------------------------------------ *)
(** ** Tasks and their interaction with the outside world *)

(** A task body: a finite tree of the three interactions of the source. *)
Inductive Task (A : Type) : Type :=
| Ret (a : A)
| OpenWrite (path body : string) (k : Task A)
| CtxtExec (cmd : list string) (logfile : string) (k : Z -> Task A)
| IsFile (path : string) (k : bool -> Task A).

Arguments Ret {A} a.
Arguments OpenWrite {A} path body k.
Arguments CtxtExec {A} cmd logfile k.
Arguments IsFile {A} path k.

Fixpoint bind {A B : Type} (t : Task A) (f : A -> Task B) : Task B :=
  match t with
  | Ret a => f a
  | OpenWrite path body k => OpenWrite path body (bind k f)
  | CtxtExec cmd logfile k => CtxtExec cmd logfile (fun st => bind (k st) f)
  | IsFile path k => IsFile path (fun b => bind (k b) f)
  end.

(** [with open(path, "w") as fp: ...], with the content the block wrote. *)
Definition open_write (path body : string) : Task unit :=
  OpenWrite path body (Ret tt).

(** [await ctxt.exec(cmd, logfile=logfile)] *)
Definition ctxt_exec (cmd : list string) (logfile : string) : Task Z :=
  CtxtExec cmd logfile (fun st => Ret st).

(** [os.path.isfile(path)] *)
Definition os_path_isfile (path : string) : Task bool :=
  IsFile path (fun b => Ret b).

Declare Scope task_scope.
Delimit Scope task_scope with task.
Notation "x <- t ;; k" := (bind t (fun x => k))
  (at level 61, t at next level, right associativity) : task_scope.
Notation "t ;; k" := (bind t (fun _ => k))
  (at level 61, right associativity) : task_scope.
Open Scope task_scope.

(** [Synth], lines 67-140. *)
Definition Synth (input : TaskDataInput) : Task TaskDataResult :=
  let c := _collect_rtl (inputs input) in
  let p := params input in
  let out_file := netlist_file p in
  let script_path := os_path_join (rundir input) "synth.ys" in
  let out_path := netlist_path p (rundir input) in
  open_write script_path (content (Synth_script c p (rundir input))) ;;
  let cmd := ["yosys"; "-l"; "synth.log"; script_path] in
  st <- ctxt_exec cmd "synth.log" ;;
  ok <- (if (st =? 0)%Z then os_path_isfile out_path else Ret false) ;;
  let output :=
    if ok then
      [mkFileSet (name input) "yosysNetlist" (rundir input) [out_file]
         ([("format=" ++ netlist_format p)%string] ++ top_attr p)]
    else [] in
  Ret (mkResult st output).

(** [SynthIce40], lines 143-205. *)
Definition SynthIce40 (input : TaskDataInput) : Task TaskDataResult :=
  let c := _collect_rtl (inputs input) in
  let p := params input in
  let out_file := netlist_file p in
  let script_path := os_path_join (rundir input) "synth.ys" in
  let out_path := netlist_path p (rundir input) in
  open_write script_path (content (SynthIce40_script c p (rundir input))) ;;
  let cmd := ["yosys"; "-l"; "synth.log"; script_path] in
  st <- ctxt_exec cmd "synth.log" ;;
  ok <- (if (st =? 0)%Z then os_path_isfile out_path else Ret false) ;;
  let output :=
    if ok then
      [mkFileSet (name input) "yosysNetlist" (rundir input) [out_file]
         ([("format=" ++ netlist_format p)%string; "target=ice40";
           ("device=" ++ ice40_device p)%string] ++ top_attr p)]
    else [] in
  Ret (mkResult st output).

(** [SynthXilinx], lines 208-276. *)
Definition SynthXilinx (input : TaskDataInput) : Task TaskDataResult :=
  let c := _collect_rtl (inputs input) in
  let p := params input in
  let out_file := netlist_file p in
  let script_path := os_path_join (rundir input) "synth.ys" in
  let out_path := netlist_path p (rundir input) in
  open_write script_path (content (SynthXilinx_script c p (rundir input))) ;;
  let cmd := ["yosys"; "-l"; "synth.log"; script_path] in
  st <- ctxt_exec cmd "synth.log" ;;
  ok <- (if (st =? 0)%Z then os_path_isfile out_path else Ret false) ;;
  let output :=
    if ok then
      [mkFileSet (name input) "yosysNetlist" (rundir input) [out_file]
         ([("format=" ++ netlist_format p)%string; "target=xilinx";
           ("family=" ++ xilinx_family p)%string] ++ top_attr p)]
    else [] in
  Ret (mkResult st output).

(** [SynthLattice], lines 279-327. *)
Definition SynthLattice (input : TaskDataInput) : Task TaskDataResult :=
  let c := _collect_rtl (inputs input) in
  let p := params input in
  let out_file := netlist_file p in
  let script_path := os_path_join (rundir input) "synth.ys" in
  let out_path := netlist_path p (rundir input) in
  open_write script_path (content (SynthLattice_script c p (rundir input))) ;;
  let cmd := ["yosys"; "-l"; "synth.log"; script_path] in
  st <- ctxt_exec cmd "synth.log" ;;
  ok <- (if (st =? 0)%Z then os_path_isfile out_path else Ret false) ;;
  let output :=
    if ok then
      [mkFileSet (name input) "yosysNetlist" (rundir input) [out_file]
         ([("format=" ++ netlist_format p)%string; "target=lattice";
           ("family=" ++ lattice_family p)%string] ++ top_attr p)]
    else [] in
  Ret (mkResult st output).

(** [SynthGowin], lines 330-371. *)
Definition SynthGowin (input : TaskDataInput) : Task TaskDataResult :=
  let c := _collect_rtl (inputs input) in
  let p := params input in
  let out_file := netlist_file p in
  let script_path := os_path_join (rundir input) "synth.ys" in
  let out_path := netlist_path p (rundir input) in
  open_write script_path (content (SynthGowin_script c p (rundir input))) ;;
  let cmd := ["yosys"; "-l"; "synth.log"; script_path] in
  st <- ctxt_exec cmd "synth.log" ;;
  ok <- (if (st =? 0)%Z then os_path_isfile out_path else Ret false) ;;
  let output :=
    if ok then
      [mkFileSet (name input) "yosysNetlist" (rundir input) [out_file]
         ([("format=" ++ netlist_format p)%string; "target=gowin"]
          ++ top_attr p)]
    else [] in
  Ret (mkResult st output).

(** [FormalPrepare], lines 374-431. *)
Definition FormalPrepare (input : TaskDataInput) : Task TaskDataResult :=
  let c := _collect_rtl (inputs input) in
  let p := params input in
  let out_file := "model.smt2" in
  let script_path := os_path_join (rundir input) "formal.ys" in
  let out_path := model_path (rundir input) in
  open_write script_path (content (FormalPrepare_script c p (rundir input))) ;;
  let cmd := ["yosys"; "-l"; "formal.log"; script_path] in
  st <- ctxt_exec cmd "formal.log" ;;
  ok <- (if (st =? 0)%Z then os_path_isfile out_path else Ret false) ;;
  let output :=
    if ok then
      [mkFileSet (name input) "yosysSMT2" (rundir input) [out_file]
         (top_attr p)]
    else [] in
  Ret (mkResult st output).

(** [Script], lines 434-468. *)
Definition Script (input : TaskDataInput) : Task TaskDataResult :=
  let c := _collect_rtl (inputs input) in
  let p := params input in
  let output_format := script_format p in
  let script_path := os_path_join (rundir input) "user.ys" in
  open_write script_path (content (Script_script c p (rundir input))) ;;
  let cmd := ["yosys"; "-l"; "script.log"; script_path] in
  st <- ctxt_exec cmd "script.log" ;;
  output <-
    (if (st =? 0)%Z && nonempty output_format then
       let out_file := ("netlist." ++ output_format)%string in
       let out_path := os_path_join (rundir input) out_file in
       isf <- os_path_isfile out_path ;;
       Ret (if isf then
              [mkFileSet (name input) "yosysNetlist" (rundir input) [out_file]
                 ([("format=" ++ output_format)%string] ++ top_attr p)]
            else [])
     else Ret []) ;;
  Ret (mkResult st output).

(** The seven variants. *)
Inductive Variant : Type :=
| Generic | Ice40 | Xilinx | Lattice | Gowin | Formal | RawScript.

Definition task (v : Variant) : TaskDataInput -> Task TaskDataResult :=
  match v with
  | Generic => Synth
  | Ice40 => SynthIce40
  | Xilinx => SynthXilinx
  | Lattice => SynthLattice
  | Gowin => SynthGowin
  | Formal => FormalPrepare
  | RawScript => Script
  end.

(** *** Worlds *)

(** What a task needs from the world it runs in: the file system ([open]
    for writing, [os.path.isfile]) and the process runner [ctxt.exec], which
    returns the exit status of the tool and may change the file system. *)
Class Ctxt (W : Type) : Type := {
  fs_write : string -> string -> W -> W;
  exec : list string -> string -> W -> Z * W;
  isfile : string -> W -> bool
}.

(** What was observed during a run. *)
Inductive Event : Type :=
| EvOpenWrite (path body : string)
| EvExec (cmd : list string) (logfile : string) (st : Z)
| EvIsFile (path : string) (answer : bool).

Fixpoint run {W : Type} {C : Ctxt W} {A : Type} (t : Task A) (w : W)
    : A * W * list Event :=
  match t with
  | Ret a => (a, w, [])
  | OpenWrite path body k =>
      let '(a, w', tr) := run k (fs_write path body w) in
      (a, w', EvOpenWrite path body :: tr)
  | CtxtExec cmd logfile k =>
      let '(st, w1) := exec cmd logfile w in
      let '(a, w', tr) := run (k st) w1 in
      (a, w', EvExec cmd logfile st :: tr)
  | IsFile path k =>
      let b := isfile path w in
      let '(a, w', tr) := run (k b) w in
      (a, w', EvIsFile path b :: tr)
  end.

Definition result_of {W A : Type} (r : A * W * list Event) : A :=
  fst (fst r).

Definition transcript_of {W A : Type} (r : A * W * list Event) : list Event :=
  snd r.

(** The files a run wrote, with their content. *)
Fixpoint writes (tr : list Event) : list (string * string) :=
  match tr with
  | [] => []
  | EvOpenWrite path body :: tr' => (path, body) :: writes tr'
  | _ :: tr' => writes tr'
  end.

(** A world to run examples in: the regular files on disk, and a tool that
    exits with [tool_status] after creating the files [tool_outputs]. *)
Record SimWorld : Type := mkSim {
  disk : list string;
  tool_status : Z;
  tool_outputs : list string
}.

#[export] Instance SimCtxt : Ctxt SimWorld := {|
  fs_write path _ w :=
    mkSim (path :: disk w) (tool_status w) (tool_outputs w);
  exec _ logfile w :=
    (tool_status w,
     mkSim (logfile :: tool_outputs w ++ disk w) (tool_status w)
           (tool_outputs w));
  isfile path w := existsb (String.eqb path) (disk w)
|}.

(* ------------------------------------------------------------------ *)
(** ** Tables over the variants *)

(** The script a variant composes, and where it writes it. *)
Definition script_of (v : Variant)
    : Classified -> Params -> string -> File :=
  match v with
  | Generic => Synth_script
  | Ice40 => SynthIce40_script
  | Xilinx => SynthXilinx_script
  | Lattice => SynthLattice_script
  | Gowin => SynthGowin_script
  | Formal => FormalPrepare_script
  | RawScript => Script_script
  end.

Definition script_name (v : Variant) : string :=
  match v with
  | Formal => "formal.ys"
  | RawScript => "user.ys"
  | _ => "synth.ys"
  end.

(** The path whose existence decides whether an artifact is produced. *)
Definition out_path_of (v : Variant) (p : Params) (rundir : string) : string :=
  match v with
  | Formal => model_path rundir
  | RawScript => os_path_join rundir ("netlist." ++ script_format p)
  | _ => netlist_path p rundir
  end.

(** The directives of a variant that carry optional flags (without their
    newline): the synthesis directive; for the formal variant the hierarchy
    and the model-write directives; none for the raw script. *)
Definition flag_directives (v : Variant) (p : Params) (rundir : string)
    : list string :=
  match v with
  | Generic => [Synth_synth_cmd p]
  | Ice40 => [SynthIce40_synth_cmd p (netlist_path p rundir)]
  | Xilinx => [SynthXilinx_synth_cmd p (netlist_path p rundir)]
  | Lattice => [SynthLattice_synth_cmd p (netlist_path p rundir)]
  | Gowin => [SynthGowin_synth_cmd p (netlist_path p rundir)]
  | Formal => [FormalPrepare_hierarchy p;
               (FormalPrepare_smt2_cmd p ++ " " ++ model_path rundir)%string]
  | RawScript => []
  end.

(** A flag is present when it is one of the space-separated words of such
    a directive. *)
Definition flag_present (flag : string) (v : Variant) (p : Params)
    (rundir : string) : Prop :=
  exists d, In d (flag_directives v p rundir) /\ In flag (words d).

(** What decides an optional flag: an optional boolean parameter, the top
    module, or the output format being a given one. *)
Inductive FlagParam : Type :=
| OnBool (get : Params -> option bool)
| OnTop
| OnFormat (f : string).

(** The test the source makes before it appends the flag. *)
Definition flag_on (k : FlagParam) (p : Params) : bool :=
  match k with
  | OnBool get => truthy (get p)
  | OnTop => truthy_str (top p)
  | OnFormat f => netlist_format p =? f
  end.

(** The parameter behind the flag is absent. *)
Definition param_absent (k : FlagParam) (p : Params) : Prop :=
  match k with
  | OnBool get => get p = None
  | OnTop => top p = None
  | OnFormat _ => output_format p = None
  end.

(** Section 4.2 of the specification: the optional flags of each variant,
    each with the parameter that decides it. *)
Definition optional_flags (v : Variant) : list (string * FlagParam) :=
  match v with
  | Generic =>
      [("-top", OnTop);
       ("-flatten", OnBool flatten);
       ("-nofsm", OnBool nofsm);
       ("-noabc", OnBool noabc);
       ("-retime", OnBool retime)]
  | Ice40 =>
      [("-top", OnTop);
       ("-dff", OnBool dff);
       ("-retime", OnBool retime);
       ("-nocarry", OnBool nocarry);
       ("-nobram", OnBool nobram);
       ("-dsp", OnBool dsp);
       ("-abc9", OnBool abc9);
       ("-json", OnFormat "json");
       ("-blif", OnFormat "blif");
       ("-edif", OnFormat "edif")]
  | Xilinx =>
      [("-top", OnTop);
       ("-flatten", OnBool flatten);
       ("-dff", OnBool dff);
       ("-retime", OnBool retime);
       ("-nobram", OnBool nobram);
       ("-nodsp", OnBool nodsp);
       ("-noiopad", OnBool noiopad);
       ("-noclkbuf", OnBool noclkbuf);
       ("-abc9", OnBool abc9);
       ("-json", OnFormat "json");
       ("-edif", OnFormat "edif");
       ("-blif", OnFormat "blif")]
  | Lattice =>
      [("-top", OnTop);
       ("-dff", OnBool dff);
       ("-retime", OnBool retime);
       ("-json", OnFormat "json");
       ("-edif", OnFormat "edif")]
  | Gowin =>
      [("-top", OnTop);
       ("-json", OnFormat "json");
       ("-vout", OnFormat "verilog")]
  | Formal =>
      [("-top", OnTop);
       ("-bv", OnBool bv);
       ("-mem", OnBool mem);
       ("-wires", OnBool wires)]
  | RawScript => []
  end.

(** The caller's strings that a variant copies into those directives. *)
Definition interpolated (v : Variant) (p : Params) (rundir : string)
    : list string :=
  match v with
  | Generic => [fmt (top p)]
  | Ice40 => [ice40_device p; fmt (top p); netlist_path p rundir]
  | Xilinx => [xilinx_family p; fmt (top p); netlist_path p rundir]
  | Lattice => [lattice_family p; fmt (top p); netlist_path p rundir]
  | Gowin => [fmt (top p); netlist_path p rundir]
  | Formal => [fmt (top p); model_path rundir]
  | RawScript => []
  end.

(** The four target families, the output formats the synthesis directive of
    each can write (sections 4.2 and 6 of the specification), the directive
    of each, and the same directive before the output-format chain. *)
Definition is_family (v : Variant) : bool :=
  match v with Ice40 | Xilinx | Lattice | Gowin => true | _ => false end.

Definition supported_formats (v : Variant) : list string :=
  match v with
  | Generic => ["json"; "verilog"; "blif"; "edif"; "rtlil"]
  | Ice40 => ["json"; "blif"; "edif"]
  | Xilinx => ["json"; "edif"; "blif"]
  | Lattice => ["json"; "edif"]
  | Gowin => ["json"; "verilog"]
  | _ => []
  end.

Definition supported (v : Variant) (p : Params) : bool :=
  existsb (String.eqb (netlist_format p)) (supported_formats v).

Definition family_synth_cmd (v : Variant) (p : Params) (out_path : string)
    : string :=
  match v with
  | Ice40 => SynthIce40_synth_cmd p out_path
  | Xilinx => SynthXilinx_synth_cmd p out_path
  | Lattice => SynthLattice_synth_cmd p out_path
  | Gowin => SynthGowin_synth_cmd p out_path
  | _ => ""
  end.

Definition family_flags (v : Variant) (p : Params) : string :=
  match v with
  | Ice40 => SynthIce40_flags p
  | Xilinx => SynthXilinx_flags p
  | Lattice => SynthLattice_flags p
  | Gowin => SynthGowin_flags p
  | _ => ""
  end.

(** Section 4.4 of the specification: the attribute list in its fixed
    order, format tag, target tags, top tag. *)
Definition format_tag (v : Variant) (p : Params) : list string :=
  match v with
  | Formal => []
  | RawScript => [("format=" ++ script_format p)%string]
  | _ => [("format=" ++ netlist_format p)%string]
  end.

Definition target_tags (v : Variant) (p : Params) : list string :=
  match v with
  | Ice40 => ["target=ice40"; ("device=" ++ ice40_device p)%string]
  | Xilinx => ["target=xilinx"; ("family=" ++ xilinx_family p)%string]
  | Lattice => ["target=lattice"; ("family=" ++ lattice_family p)%string]
  | Gowin => ["target=gowin"]
  | _ => []
  end.

(** The log file, the kind tag and the file name of each variant, and the
    artifact built from them. *)
Definition log_name (v : Variant) : string :=
  match v with
  | Formal => "formal.log"
  | RawScript => "script.log"
  | _ => "synth.log"
  end.

Definition kind_tag (v : Variant) : string :=
  match v with Formal => "yosysSMT2" | _ => "yosysNetlist" end.

Definition out_file_of (v : Variant) (p : Params) : string :=
  match v with
  | Formal => "model.smt2"
  | RawScript => "netlist." ++ script_format p
  | _ => netlist_file p
  end.

Definition artifact_of (v : Variant) (input : TaskDataInput) : FileSet :=
  let p := params input in
  mkFileSet (name input) (kind_tag v) (rundir input) [out_file_of v p]
            (format_tag v p ++ target_tags v p ++ top_attr p).

(** Whether the existence of the output file is looked at once the tool has
    exited with status 0: always, except in the raw-script variant without
    an output format. *)
Definition gate (v : Variant) (p : Params) : bool :=
  match v with RawScript => nonempty (script_format p) | _ => true end.

(** A directive that reads sources or include directories, and whether a
    directive carries the formal flag. *)
Definition is_read_directive (d : string) : bool :=
  startswith "read_verilog " d.

Definition carries_formal (d : string) : bool :=
  existsb (String.eqb "-formal") (words d).

(* ------------------------------------------------------------------ *)
(** ** Example inputs *)

(** All parameters absent. *)
Definition no_params : Params :=
  mkParams None None None None None None None None None None None None
           None None None None None None None None "" None.

(** [top], [output_format], [flatten], [dff] and [args] given, the rest
    absent. *)
Definition some_params (top_ fmt_ : option string) (flatten_ dff_ : option bool)
    (args_ : option (list string)) : Params :=
  mkParams top_ fmt_ None None flatten_ None None None dff_ None None None
           None None None None None None None None "" args_.

(** Formal-task parameters. *)
Definition formal_params (top_ : option string) (bv_ mem_ wires_ : option bool)
    : Params :=
  mkParams top_ None None None None None None None None None None None
           None None None None bv_ mem_ wires_ None "" None.

(** Raw-script parameters. *)
Definition script_params (fmt_ : option string) (body : string) : Params :=
  mkParams None fmt_ None None None None None None None None None None
           None None None None None None None None body None.

(** One SystemVerilog source [top.sv] in [/d]. *)
Definition one_sv_source : list InputItem :=
  [mkItem "std.FileSet" "systemVerilogSource" "/d" ["top.sv"] []].

(** A Verilog source with an include directory, then the same again, an
    include-directory marker, a library and an item of another type. *)
Definition mixed_inputs : list InputItem :=
  [mkItem "std.FileSet" "verilogSource" "/d" ["b.v"; "a.v"] ["inc"];
   mkItem "std.FileSet" "verilogSource" "/d" ["b.v"; "a.v"] ["inc"];
   mkItem "std.FileSet" "verilogIncDir" "/i" [] [];
   mkItem "std.FileSet" "libertyLib" "/l" ["cells.lib"] [];
   mkItem "std.DataItem" "verilogSource" "/x" ["x.v"] []].

(** A world with an empty disk whose tool exits with [st] after creating
    [outs]. *)
Definition sim (st : Z) (outs : list string) : SimWorld := mkSim [] st outs.

(* ------------------------------------------------------------------ *)
(** ** Definitions for the further properties *)

(** Some code point of the string is not white space. *)
Fixpoint has_nonspace (s : string) : bool :=
  match s with
  | "" => false
  | String c s' => negb (isspace c) || has_nonspace s'
  end.

(** [s.endswith("\n")] *)
Fixpoint endswith_nl (s : string) : bool :=
  match s with
  | "" => false
  | String c "" => Ascii.eqb c "010"
  | String _ s' => endswith_nl s'
  end.

(** The parameters with [args] replaced. *)
Definition set_args (a : option (list string)) (p : Params) : Params :=
  mkParams (top p) (output_format p) (device p) (family p) (flatten p)
           (nofsm p) (noabc p) (retime p) (dff p) (nocarry p) (nobram p)
           (dsp p) (nodsp p) (noiopad p) (noclkbuf p) (abc9 p) (bv p) (mem p)
           (wires p) (read_rtl p) (script p) a.

(** The read directives of [_write_read_cmds], one per entry. *)
Definition incdir_line (d : string) : string :=
  "read_verilog -incdir " ++ d ++ nl.

Definition source_line (s : string * bool) : string :=
  "read_verilog" ++ (if snd s then " -sv" else "") ++ " " ++ fst s ++ nl.

Definition liberty_line (lib : string) : string :=
  "read_liberty -lib " ++ lib ++ nl.

Definition arg_line (arg : string) : string := arg ++ nl.

(** The words of the flag table of a variant, and the flags of the table
    whose test succeeds, in the order of the table. *)
Definition is_flag_of (v : Variant) (w : string) : bool :=
  existsb (String.eqb w) (map fst (optional_flags v)).

Definition flags_on (v : Variant) (p : Params) : list string :=
  map fst (filter (fun e => flag_on (snd e) p) (optional_flags v)).

(** The device or family a target variant synthesizes for, the flag that
    introduces it in the directive and the key of its attribute. *)
Definition target_value (v : Variant) (p : Params) : string :=
  match v with
  | Ice40 => ice40_device p
  | Xilinx => xilinx_family p
  | Lattice => lattice_family p
  | _ => ""
  end.

Definition target_head (v : Variant) : string :=
  match v with
  | Ice40 => "synth_ice40 -device "
  | Xilinx => "synth_xilinx -family "
  | Lattice => "synth_lattice -family "
  | _ => ""
  end.

Definition target_key (v : Variant) : string :=
  match v with
  | Ice40 => "device="
  | Xilinx | Lattice => "family="
  | _ => ""
  end.

Definition target_default (v : Variant) : string :=
  match v with
  | Ice40 => "hx"
  | Xilinx => "xc7"
  | Lattice => "ecp5"
  | _ => ""
  end.

Definition target_param (v : Variant) (p : Params) : option string :=
  match v with
  | Ice40 => device p
  | Xilinx | Lattice => family p
  | _ => None
  end.

(** The output-write directive of the generic variant. *)
Definition generic_write (p : Params) (rundir : string) : list string :=
  if supported Generic p
  then [("write_" ++ netlist_format p ++ " " ++ netlist_path p rundir
         ++ nl)%string]
  else [].

(** The strings a variant interpolates bring no word of its flag table. *)
Definition no_flag_words (v : Variant) (p : Params) (rd : string) : bool :=
  forallb (fun t => forallb (fun w => negb (is_flag_of v w)) (words t))
          (interpolated v p rd).

(** The read directive of a source in the formal variant. *)
Definition formal_source_line (s : string * bool) : string :=
  "read_verilog -formal" ++ (if snd s then " -sv" else "") ++ " " ++ fst s
  ++ nl.

(** The script of each variant as a list of directives. *)
Definition layout (v : Variant) (c : Classified) (p : Params) (rd : string)
    : File :=
  let '(sources, incdirs, libs) := c in
  let reads := map incdir_line incdirs ++ map source_line sources in
  let trailing := map arg_line (list_or_empty (args p)) in
  match v with
  | Generic =>
      reads ++ map liberty_line libs
      ++ [(Synth_synth_cmd p ++ nl)%string]
      ++ match libs with
         | lib0 :: _ => [("dfflibmap -liberty " ++ lib0 ++ nl)%string;
                         ("abc -liberty " ++ lib0 ++ nl)%string]
         | [] => []
         end
      ++ [("opt_clean" ++ nl)%string]
      ++ [match libs with
          | lib0 :: _ => ("stat -liberty " ++ lib0 ++ nl)%string
          | [] => ("stat" ++ nl)%string
          end]
      ++ generic_write p rd
      ++ trailing
  | Ice40 | Xilinx | Lattice | Gowin =>
      reads ++ [(family_synth_cmd v p (netlist_path p rd) ++ nl)%string]
      ++ trailing
  | Formal =>
      map incdir_line incdirs ++ map formal_source_line sources
      ++ [(FormalPrepare_hierarchy p ++ nl)%string;
          ("proc" ++ nl)%string; ("opt" ++ nl)%string;
          ("memory -nordff -nomap" ++ nl)%string; ("opt -fast" ++ nl)%string;
          (FormalPrepare_smt2_cmd p ++ " " ++ model_path rd ++ nl)%string]
      ++ trailing
  | RawScript =>
      (if truthy (read_rtl p) then reads ++ map liberty_line libs else [])
      ++ [(script p ++ nl)%string]
  end.

(** A parameter set with every falsy value of an optional parameter
    replaced by an absent one: a [False] flag, an empty [top],
    [output_format], [device] or [family], and an empty [args] list become
    [None].  The script body of the raw-script variant is not optional (the
    source concatenates it with a newline) and is kept as it is. *)
Definition norm_flag (o : option bool) : option bool :=
  if truthy o then Some true else None.

Definition norm_str (o : option string) : option string :=
  if truthy_str o then o else None.

Definition norm_list (o : option (list string)) : option (list string) :=
  match o with Some [] => None | _ => o end.

Definition normalize (p : Params) : Params :=
  mkParams (norm_str (top p)) (norm_str (output_format p))
           (norm_str (device p)) (norm_str (family p))
           (norm_flag (flatten p)) (norm_flag (nofsm p)) (norm_flag (noabc p))
           (norm_flag (retime p)) (norm_flag (dff p)) (norm_flag (nocarry p))
           (norm_flag (nobram p)) (norm_flag (dsp p)) (norm_flag (nodsp p))
           (norm_flag (noiopad p)) (norm_flag (noclkbuf p))
           (norm_flag (abc9 p)) (norm_flag (bv p)) (norm_flag (mem p))
           (norm_flag (wires p)) (norm_flag (read_rtl p)) (script p)
           (norm_list (args p)).

(** The task input with other parameters. *)
Definition with_params (p : Params) (input : TaskDataInput) : TaskDataInput :=
  mkInput (name input) (rundir input) (inputs input) p.

(** *** Worlds in which the script may fail to be written *)

(** The file system as [open(path, "w")] sees it: the block that writes
    the script either completes ([true]) or raises [OSError] ([false]), and
    leaves a world behind in both cases.  The process runner and
    [os.path.isfile] are as in [Ctxt]. *)
Class CtxtIO (W : Type) : Type := {
  io_open_write : string -> string -> W -> bool * W;
  io_exec : list string -> string -> W -> Z * W;
  io_isfile : string -> W -> bool
}.

(** The exception a task lets through. *)
Inductive Raised : Type :=
| OSError (path : string).

(** A task in such a world: it stops at the first [open] that raises. *)
Fixpoint run_io {W : Type} {C : CtxtIO W} {A : Type} (t : Task A) (w : W)
    : (A + Raised) * W * list Event :=
  match t with
  | Ret a => (inl a, w, [])
  | OpenWrite path body k =>
      let '(ok, w1) := io_open_write path body w in
      if ok then
        let '(a, w', tr) := run_io k w1 in
        (a, w', EvOpenWrite path body :: tr)
      else (inr (OSError path), w1, [])
  | CtxtExec cmd logfile k =>
      let '(st, w1) := io_exec cmd logfile w in
      let '(a, w', tr) := run_io (k st) w1 in
      (a, w', EvExec cmd logfile st :: tr)
  | IsFile path k =>
      let b := io_isfile path w in
      let '(a, w', tr) := run_io (k b) w in
      (a, w', EvIsFile path b :: tr)
  end.

(** The same world, seen by a task whose script was written. *)
Definition writable_ctxt {W : Type} (C : CtxtIO W) : Ctxt W := {|
  fs_write path body w := snd (io_open_write path body w);
  exec := io_exec;
  isfile := io_isfile
|}.

(** An example world whose run directory may be read-only. *)
Record SimIOWorld : Type := mkSimIO {
  sim_world : SimWorld;
  rundir_writable : bool
}.

#[export] Instance SimIOCtxt : CtxtIO SimIOWorld := {|
  io_open_write path body w :=
    if rundir_writable w
    then (true, mkSimIO (fs_write path body (sim_world w)) true)
    else (false, w);
  io_exec cmd logfile w :=
    (fst (exec cmd logfile (sim_world w)),
     mkSimIO (snd (exec cmd logfile (sim_world w))) (rundir_writable w));
  io_isfile path w := isfile path (sim_world w)
|}.

(* ------------------------------------------------------------------ *)
(** ** Lists built by appending in a loop *)

Section Loops.

Variables A B : Type.
Variable f : A -> B.

Lemma fold_append_map (l : list A) (acc : list B) :
  fold_left (fun acc x => acc ++ [f x]) l acc = acc ++ map f l.
Proof.
  revert acc; induction l as [|x l IH]; intros acc; simpl.
  - now rewrite app_nil_r.
  - now rewrite IH, <- app_assoc.
Qed.

End Loops.

Lemma fold_left_pointwise (A B : Type) (f g : B -> A -> B) (l : list A)
    (acc : B) :
  (forall b a, f b a = g b a) -> fold_left f l acc = fold_left g l acc.
Proof.
  intros H. revert acc; induction l as [|x l IH]; intros acc; simpl.
  - reflexivity.
  - now rewrite H, IH.
Qed.

Lemma fold_write_map (A : Type) (f : A -> string) (l : list A) (fp : File) :
  fold_left (fun fp x => fp_write fp (f x)) l fp = fp ++ map f l.
Proof. unfold fp_write. apply fold_append_map. Qed.

Lemma fold_write_pairs (g : string -> bool -> string) (l : Sources)
    (fp : File) :
  fold_left (fun fp (s : string * bool) =>
               let '(path, is_sv) := s in fp_write fp (g path is_sv)) l fp
  = fp ++ map (fun s => g (fst s) (snd s)) l.
Proof.
  rewrite <- (fold_write_map (fun s => g (fst s) (snd s))).
  apply fold_left_pointwise. now intros fp' [path is_sv].
Qed.

(* ------------------------------------------------------------------ *)
(** ** The classifier *)

(** What one iteration adds to the accumulators is what section 4.1 says
    the collection contributes. *)
Lemma collect_one_spec (acc : Classified) (fs : InputItem) :
  collect_one acc fs =
  (fst (fst acc) ++ Spec.sources_of fs,
   snd (fst acc) ++ Spec.incdirs_of fs,
   snd acc ++ Spec.libs_of fs).
Proof.
  destruct acc as [[s i] l].
  unfold collect_one, Spec.sources_of, Spec.incdirs_of, Spec.libs_of,
    Spec.kind_of, Spec.blank; simpl fst; simpl snd.
  destruct (item_type fs =? "std.FileSet"); simpl negb; cbv iota;
    [|now rewrite !app_nil_r].
  destruct (item_filetype fs =? "verilogSource") eqn:E1.
  { apply String.eqb_eq in E1. rewrite E1. simpl.
    now rewrite !fold_append_map, app_nil_r. }
  destruct (item_filetype fs =? "systemVerilogSource") eqn:E2.
  { simpl. now rewrite !fold_append_map, app_nil_r. }
  simpl orb; cbv iota.
  destruct (item_filetype fs =? "verilogIncDir").
  { destruct (nonempty (strip (item_basedir fs))); simpl;
      now rewrite !app_nil_r. }
  destruct (item_filetype fs =? "verilogInclude").
  { simpl. now rewrite !fold_append_map, !app_nil_r. }
  destruct (item_filetype fs =? "systemVerilogInclude").
  { simpl. now rewrite !fold_append_map, !app_nil_r. }
  simpl orb; cbv iota.
  destruct (item_filetype fs =? "libertyLib"); [|now rewrite !app_nil_r].
  rewrite fold_append_map, !app_nil_r.
  destruct (item_files fs) as [|f0 fl]; simpl.
  - rewrite app_nil_r.
    destruct (nonempty (strip (item_basedir fs))); simpl;
      now rewrite ?app_nil_r.
  - reflexivity.
Qed.

Lemma collect_fold_spec (l : list InputItem) (acc : Classified) :
  fold_left collect_one l acc =
  (fst (fst acc) ++ flat_map Spec.sources_of l,
   snd (fst acc) ++ flat_map Spec.incdirs_of l,
   snd acc ++ flat_map Spec.libs_of l).
Proof.
  revert acc; induction l as [|fs l IH]; intros [[s i] lb]; cbn [fold_left].
  - simpl. now rewrite !app_nil_r.
  - rewrite IH, collect_one_spec; simpl. now rewrite <- !app_assoc.
Qed.

Lemma collect_rtl_classify (l : list InputItem) :
  _collect_rtl l = Spec.classify l.
Proof. unfold _collect_rtl. now rewrite collect_fold_spec. Qed.

Lemma unrecognized_kind (fs : InputItem) :
  item_type fs <> "std.FileSet" \/
  ~ In (item_filetype fs)
       ["verilogSource"; "systemVerilogSource"; "verilogIncDir";
        "verilogInclude"; "systemVerilogInclude"; "libertyLib"] ->
  Spec.kind_of fs = Spec.Unrecognized.
Proof.
  unfold Spec.kind_of. intros [H|H].
  - apply String.eqb_neq in H. now rewrite H.
  - destruct (item_type fs =? "std.FileSet"); [simpl|reflexivity].
    repeat match goal with
    | |- context [item_filetype fs =? ?s] =>
        let E := fresh in
        destruct (String.eqb_spec (item_filetype fs) s) as [E|E];
        [exfalso; apply H; rewrite E; simpl; tauto|]
    end.
    reflexivity.
Qed.

(** C8.  The classifier returns, for each of the three lists, the
    contributions of the collections in the order of the input list, each
    contribution listing the members of its collection in their own order
    (a [map] over them): nothing is reordered, sorted or dropped as a
    duplicate.  A collection of an unrecognized kind (not of type
    [std.FileSet], or of a file type outside the six recognized ones) can be
    removed from the input without changing any of the three lists. *)
Theorem collect_rtl_discovery_order :
  forall inputs : list InputItem,
    _collect_rtl inputs =
      (flat_map Spec.sources_of inputs,
       flat_map Spec.incdirs_of inputs,
       flat_map Spec.libs_of inputs)
    /\ (forall before fs after,
          inputs = before ++ fs :: after ->
          item_type fs <> "std.FileSet" \/
          ~ In (item_filetype fs)
               ["verilogSource"; "systemVerilogSource"; "verilogIncDir";
                "verilogInclude"; "systemVerilogInclude"; "libertyLib"] ->
          _collect_rtl inputs = _collect_rtl (before ++ after)).
Proof.
  intros inputs. split.
  - apply collect_rtl_classify.
  - intros before fs after -> Hk.
    rewrite !collect_rtl_classify. unfold Spec.classify.
    rewrite !flat_map_app; simpl.
    unfold Spec.sources_of, Spec.incdirs_of, Spec.libs_of.
    now rewrite (unrecognized_kind fs Hk).
Qed.

Lemma collect_rtl_discovery_order_witness :
  _collect_rtl mixed_inputs =
    ([("/d/b.v", false); ("/d/a.v", false); ("/d/b.v", false);
      ("/d/a.v", false)],
     ["/d/inc"; "/d/inc"; "/i"], ["/l/cells.lib"])
  /\ _collect_rtl mixed_inputs = _collect_rtl (firstn 4 mixed_inputs).
Proof.
  split; [reflexivity|].
  apply (proj2 (collect_rtl_discovery_order mixed_inputs)
               (firstn 4 mixed_inputs)
               (mkItem "std.DataItem" "verilogSource" "/x" ["x.v"] []) []).
  - reflexivity.
  - left; simpl; discriminate.
Defined.

(* ------------------------------------------------------------------ *)
(** ** Runs *)

Section Runs.

Context {W : Type} {C : Ctxt W}.

(** Every task writes its script, runs the tool once on it and, when the
    tool has exited with status 0 (and, for the raw script, a format was
    given), looks for the output file; the artifact is produced when it is
    found. *)
Lemma run_task (v : Variant) (input : TaskDataInput) (w : W) :
  let p := params input in
  let rd := rundir input in
  let sp := os_path_join rd (script_name v) in
  let body := content (script_of v (_collect_rtl (inputs input)) p rd) in
  let cmd := ["yosys"; "-l"; log_name v; sp] in
  let ew := exec cmd (log_name v) (fs_write sp body w) in
  let asked := (fst ew =? 0)%Z && gate v p in
  let found := isfile (out_path_of v p rd) (snd ew) in
  run (task v input) w =
    (mkResult (fst ew) (if asked && found then [artifact_of v input] else []),
     snd ew,
     EvOpenWrite sp body :: EvExec cmd (log_name v) (fst ew)
       :: (if asked then [EvIsFile (out_path_of v p rd) found] else [])).
Proof.
  destruct v; cbv zeta;
    cbn [task script_name script_of log_name gate out_path_of];
    unfold Synth, SynthIce40, SynthXilinx, SynthLattice, SynthGowin,
      FormalPrepare, Script, open_write, ctxt_exec, os_path_isfile;
    cbv zeta; cbn [bind run];
    match goal with |- context [exec ?c ?l ?w0] =>
      destruct (exec c l w0) as [st w2] end;
    cbn [fst snd];
    (destruct (st =? 0)%Z; cbn [andb bind run]; [|reflexivity]);
    try destruct (nonempty (script_format (params input)));
    cbn [bind run]; try reflexivity;
    match goal with |- context [isfile ?q ?x] => destruct (isfile q x) end;
    reflexivity.
Qed.

Lemma run_writes (v : Variant) (input : TaskDataInput) (w : W) :
  writes (transcript_of (run (task v input) w)) =
    [(os_path_join (rundir input) (script_name v),
      content (script_of v (_collect_rtl (inputs input)) (params input)
                         (rundir input)))].
Proof.
  rewrite run_task. unfold transcript_of; cbn [snd writes].
  now destruct (_ && _).
Qed.

(** The tool is run exactly once in every run. *)
Lemma run_exec_once (v : Variant) (input : TaskDataInput) (w : W) :
  exists cmd lf st tl,
    transcript_of (run (task v input) w)
      = EvOpenWrite (os_path_join (rundir input) (script_name v))
          (content (script_of v (_collect_rtl (inputs input)) (params input)
                              (rundir input)))
        :: EvExec cmd lf st :: tl
    /\ forall cmd' lf' st', ~ In (EvExec cmd' lf' st') tl.
Proof.
  rewrite run_task. unfold transcript_of; cbn [snd].
  do 4 eexists; split; [reflexivity|].
  intros cmd' lf' st'. destruct (_ && _); simpl; intuition discriminate.
Qed.

Lemma run_exec_status (v : Variant) (input : TaskDataInput) (w : W)
    (cmd : list string) (lf : string) (st : Z) :
  In (EvExec cmd lf st) (transcript_of (run (task v input) w)) ->
  status (result_of (run (task v input) w)) = st.
Proof.
  rewrite run_task. unfold transcript_of, result_of; cbn [fst snd status].
  intros [H|[H|H]]; try discriminate.
  - now inversion H.
  - destruct (_ && _); simpl in H; intuition discriminate.
Qed.

Lemma run_isfile_path (v : Variant) (input : TaskDataInput) (w : W)
    (path : string) (b : bool) :
  In (EvIsFile path b) (transcript_of (run (task v input) w)) ->
  path = out_path_of v (params input) (rundir input)
  /\ gate v (params input) = true
  /\ status (result_of (run (task v input) w)) = 0%Z
  /\ output (result_of (run (task v input) w))
     = if b then [artifact_of v input] else [].
Proof.
  rewrite run_task. unfold transcript_of, result_of; cbn [fst snd status output].
  intros [H|[H|H]]; try discriminate.
  destruct (Z.eqb_spec (fst (exec
    ["yosys"; "-l"; log_name v; os_path_join (rundir input) (script_name v)]
    (log_name v)
    (fs_write (os_path_join (rundir input) (script_name v))
       (content (script_of v (_collect_rtl (inputs input)) (params input)
          (rundir input))) w))) 0) as [E|E]; cbn [andb] in *;
    [|simpl in H; tauto].
  destruct (gate v (params input)); simpl in H; [|tauto].
  destruct H as [H|[]]. inversion H; subst. auto.
Qed.

(** An artifact is produced exactly when the transcript shows that the
    output file was looked for and found. *)
Lemma run_output (v : Variant) (input : TaskDataInput) (w : W) :
  let r := run (task v input) w in
  (In (EvIsFile (out_path_of v (params input) (rundir input)) true)
      (transcript_of r)
   /\ output (result_of r) = [artifact_of v input])
  \/ (~ In (EvIsFile (out_path_of v (params input) (rundir input)) true)
        (transcript_of r)
      /\ output (result_of r) = []).
Proof.
  cbv zeta. rewrite run_task.
  unfold transcript_of, result_of; cbn [fst snd status output].
  destruct (_ && _); cbn [andb].
  - match goal with |- context [isfile ?q ?w2] => destruct (isfile q w2) end.
    + left; simpl; auto.
    + right; simpl; intuition discriminate.
  - right; simpl; intuition discriminate.
Qed.

End Runs.

(* ------------------------------------------------------------------ *)
(** ** The output resolver *)

(** C2.  In every variant, on every input and in every world (whatever
    files exist before or after the tool has run): when the tool exits with
    a nonzero status, the result carries exactly that status and its output
    list is empty. *)
Theorem nonzero_status_no_output :
  forall (W : Type) (C : Ctxt W) (v : Variant) (input : TaskDataInput)
         (w : W) (cmd : list string) (lf : string) (st : Z),
    In (EvExec cmd lf st) (transcript_of (run (task v input) w)) ->
    st <> 0%Z ->
    status (result_of (run (task v input) w)) = st
    /\ output (result_of (run (task v input) w)) = [].
Proof.
  intros W C v input w cmd lf st Hin Hst.
  pose proof (run_exec_status _ _ _ _ _ _ Hin) as Hs.
  split; [exact Hs|].
  destruct (run_output v input w) as [[Hf _]|[_ Ho]]; [|exact Ho].
  apply run_isfile_path in Hf. destruct Hf as (_ & _ & H0 & _). congruence.
Qed.

Lemma nonzero_status_no_output_witness :
  let input :=
    mkInput "t" "/run" one_sv_source
            (some_params (Some "top") (Some "json") None None None) in
  let w := sim 2 ["/run/netlist.json"] in
  status (result_of (run (task Generic input) w)) = 2%Z
  /\ output (result_of (run (task Generic input) w)) = [].
Proof.
  cbv zeta.
  apply (@nonzero_status_no_output SimWorld SimCtxt Generic _ _
           ["yosys"; "-l"; "synth.log"; "/run/synth.ys"] "synth.log" 2%Z).
  - vm_compute. right; left; reflexivity.
  - discriminate.
Defined.

(** C10.  Raw script: with the output format unset or empty the output list
    is empty, whatever the exit status and whatever files exist; an artifact
    implies a non-empty format, exit status 0 and that [netlist.<format>]
    was found in the run directory, and under these three conditions the
    artifact is produced. *)
Theorem raw_script_output_gate :
  forall (W : Type) (C : Ctxt W) (input : TaskDataInput) (w : W),
    let p := params input in
    let r := run (Script input) w in
    (truthy_str (output_format p) = false -> output (result_of r) = [])
    /\ (output (result_of r) <> [] ->
        exists f,
          output_format p = Some f /\ f <> ""
          /\ (exists cmd lf, In (EvExec cmd lf 0%Z) (transcript_of r))
          /\ In (EvIsFile (os_path_join (rundir input) ("netlist." ++ f)) true)
                (transcript_of r))
    /\ (forall f,
          output_format p = Some f -> f <> "" ->
          (exists cmd lf, In (EvExec cmd lf 0%Z) (transcript_of r)) ->
          isfile (os_path_join (rundir input) ("netlist." ++ f)) (snd (fst r))
            = true ->
          exists a, output (result_of r) = [a]
                    /\ files a = [("netlist." ++ f)%string]).
Proof.
  intros W C input w p r. subst r.
  change (Script input) with (task RawScript input).
  pose proof (run_task RawScript input w) as HR. cbv zeta in HR.
  cbn [gate out_path_of] in HR. fold p in HR.
  assert (Hfmt : forall f, output_format p = Some f -> f <> "" ->
                           script_format p = f /\ nonempty f = true).
  { intros f Hf Hne. unfold script_format. rewrite Hf. simpl.
    destruct f; [congruence|]. simpl. auto. }
  split; [|split].
  - intros Hu. rewrite HR. unfold result_of; cbn [fst output].
    assert (nonempty (script_format p) = false) as ->.
    { unfold script_format, truthy_str, py_or in *.
      destruct (output_format p) as [s|]; [now rewrite Hu|reflexivity]. }
    now rewrite andb_false_r.
  - intros Hne. rewrite HR in Hne |- *.
    unfold result_of, transcript_of in *; cbn [fst snd output] in *.
    destruct (_ =? 0)%Z eqn:E0; cbn [andb] in *; [|congruence].
    apply Z.eqb_eq in E0. rewrite E0.
    destruct (nonempty (script_format p)) eqn:En;
      [|exfalso; apply Hne; reflexivity].
    match type of Hne with context [isfile ?q ?x] =>
      destruct (isfile q x) eqn:Ef end;
      [|exfalso; apply Hne; reflexivity].
    unfold script_format, py_or in *.
    destruct (output_format p) as [s|] eqn:Eo; [|discriminate].
    destruct s as [|c s]; [discriminate|]. cbn [nonempty] in *.
    exists (String c s). repeat split; try congruence.
    + do 2 eexists. right; left; reflexivity.
    + right; right; left; reflexivity.
  - intros f Hf Hne [cmd [lf Hex]] Hfile.
    destruct (Hfmt f Hf Hne) as [Esf Enf].
    pose proof (run_exec_status RawScript input w _ _ _ Hex) as Hs.
    rewrite HR in Hs, Hfile |- *.
    unfold result_of in *; cbn [fst snd status output] in *.
    rewrite Hs, Esf, Enf, Hfile. cbn [Z.eqb andb].
    eexists; split; [reflexivity|].
    unfold artifact_of; cbn [files out_file_of]. fold p. now rewrite Esf.
Qed.

Lemma raw_script_output_gate_witness :
  let unset := mkInput "t" "/run" one_sv_source (script_params None "synth") in
  let given :=
    mkInput "t" "/run" one_sv_source (script_params (Some "json") "synth") in
  let w := sim 0 ["/run/netlist.json"; "/run/netlist."] in
  output (result_of (run (Script unset) w)) = []
  /\ exists a, output (result_of (run (Script given) w)) = [a]
               /\ files a = ["netlist.json"].
Proof.
  cbv zeta. split.
  - apply (proj1 (@raw_script_output_gate SimWorld SimCtxt _ _)). reflexivity.
  - apply (proj2 (proj2 (@raw_script_output_gate SimWorld SimCtxt
             (mkInput "t" "/run" one_sv_source
                      (script_params (Some "json") "synth"))
             (sim 0 ["/run/netlist.json"; "/run/netlist."]))) "json").
    + reflexivity.
    + discriminate.
    + exists ["yosys"; "-l"; "script.log"; "/run/user.ys"], "script.log".
      vm_compute. right; left; reflexivity.
    + reflexivity.
Defined.

(** The top tag is there only for a non-empty top module. *)
Lemma top_attr_cases (p : Params) :
  (truthy_str (top p) = false /\ top_attr p = [])
  \/ (exists t, top p = Some t /\ t <> ""
                /\ top_attr p = [("top=" ++ t)%string]).
Proof.
  unfold top_attr, truthy_str.
  destruct (top p) as [[|c t]|]; simpl; auto.
  right. exists (String c t). repeat split; congruence.
Qed.

(** C5, as the code has it.  Whenever an artifact is produced, its attribute
    list is, in this order: the format tag (first, in the generic, the four
    target and the raw-script variants; the formal variant has no format tag
    at all), the target tags of the variant (target and device or family, for
    the four target variants), and the top tag, present only when a
    non-empty top module was given. *)
Theorem attributes_fixed_order :
  forall (W : Type) (C : Ctxt W) (v : Variant) (input : TaskDataInput)
         (w : W) (a : FileSet),
    In a (output (result_of (run (task v input) w))) ->
    let p := params input in
    attributes a = format_tag v p ++ target_tags v p ++ top_attr p
    /\ (v <> Formal ->
        exists f rest, attributes a = ("format=" ++ f)%string :: rest)
    /\ (v = Formal -> attributes a = top_attr p)
    /\ ((truthy_str (top p) = false /\ top_attr p = [])
        \/ (exists t, top p = Some t /\ t <> ""
                      /\ top_attr p = [("top=" ++ t)%string])).
Proof.
  intros W C v input w a Hin p.
  assert (Ha : a = artifact_of v input).
  { destruct (run_output v input w) as [[_ Ho]|[_ Ho]]; rewrite Ho in Hin.
    - destruct Hin as [Hin|[]]. now symmetry.
    - destruct Hin. }
  subst a. unfold artifact_of; cbn [attributes]. fold p.
  split; [reflexivity|]. split; [|split].
  - intros Hv. destruct v; try congruence; cbn [format_tag app];
      do 2 eexists; reflexivity.
  - intros ->. reflexivity.
  - apply top_attr_cases.
Qed.

Lemma attributes_fixed_order_witness :
  let input :=
    mkInput "t" "/run" one_sv_source
            (some_params (Some "cpu") (Some "blif") None (Some true) None) in
  let a :=
    mkFileSet "t" "yosysNetlist" "/run" ["netlist.blif"]
              ["format=blif"; "target=ice40"; "device=hx"; "top=cpu"] in
  In a (output (result_of (run (task Ice40 input)
                               (sim 0 ["/run/netlist.blif"]))))
  /\ attributes a =
       format_tag Ice40 (params input) ++ target_tags Ice40 (params input)
       ++ top_attr (params input).
Proof.
  cbv zeta. split.
  - vm_compute. left; reflexivity.
  - apply (@attributes_fixed_order SimWorld SimCtxt Ice40
             (mkInput "t" "/run" one_sv_source
                (some_params (Some "cpu") (Some "blif") None (Some true) None))
             (sim 0 ["/run/netlist.blif"])).
    vm_compute. left; reflexivity.
Defined.

(** C5 as stated fails in the formal variant: a formal run that produces its
    artifact, for top module [cpu], gives it the attribute list [top=cpu],
    whose first element is not a format tag. *)
Lemma attributes_format_first_counterexample :
  let input :=
    mkInput "t" "/run" one_sv_source
            (formal_params (Some "cpu") None None None) in
  let r := run (task Formal input) (sim 0 ["/run/model.smt2"]) in
  ~ (forall a, In a (output (result_of r)) ->
               exists f rest, attributes a = ("format=" ++ f)%string :: rest).
Proof.
  cbv zeta. intros H.
  destruct (H (mkFileSet "t" "yosysSMT2" "/run" ["model.smt2"] ["top=cpu"]))
    as (f & rest & E).
  - vm_compute. left; reflexivity.
  - simpl in E. discriminate E.
Qed.

(** C7, as the code has it.  In a target variant whose output format is
    not one its synthesis directive can write, the directive is the
    directive name with its optional flags and nothing more: no write flag
    and no output path are appended.  Whether an artifact is produced is
    still decided as for every format: it is produced exactly when the tool
    exited with status 0 and [netlist.<format>] was found in the run
    directory. *)
Theorem unsupported_format_no_write_flag :
  forall (W : Type) (C : Ctxt W) (v : Variant) (input : TaskDataInput)
         (w : W),
    is_family v = true ->
    supported v (params input) = false ->
    let p := params input in
    let r := run (task v input) w in
    family_synth_cmd v p (netlist_path p (rundir input)) = family_flags v p
    /\ (output (result_of r) <> [] <->
        (exists cmd lf, In (EvExec cmd lf 0%Z) (transcript_of r))
        /\ In (EvIsFile (netlist_path p (rundir input)) true)
              (transcript_of r)).
Proof.
  intros W C v input w Hfam Hsup p r. split.
  - unfold supported in Hsup.
    destruct v; try discriminate Hfam;
      cbn [family_synth_cmd family_flags supported_formats existsb] in *;
      unfold SynthIce40_synth_cmd, SynthXilinx_synth_cmd,
        SynthLattice_synth_cmd, SynthGowin_synth_cmd; cbv zeta; subst p;
      repeat match goal with
        | |- context [netlist_format ?q =? ?s] =>
            destruct (netlist_format q =? s); try discriminate Hsup
        end; reflexivity.
  - subst r.
    assert (Ep : out_path_of v p (rundir input)
                 = netlist_path p (rundir input))
      by (destruct v; try discriminate Hfam; reflexivity).
    destruct (run_output v input w) as [[Hf Ho]|[Hf Ho]];
      fold p in Hf; rewrite Ep in Hf; rewrite Ho.
    + split; [intros _|discriminate].
      split; [|exact Hf].
      destruct (run_isfile_path _ _ _ _ _ Hf) as (_ & _ & Hs & _).
      destruct (run_exec_once v input w) as (cmd & lf & st & tl & Et & _).
      exists cmd, lf. rewrite Et. right; left.
      f_equal. rewrite <- Hs. symmetry.
      apply (run_exec_status v input w cmd lf st).
      rewrite Et. right; left; reflexivity.
    + split; [congruence|]. intros [_ H]. contradiction.
Qed.

Lemma unsupported_format_no_write_flag_witness :
  let p := some_params (Some "cpu") (Some "edif") None None None in
  let input := mkInput "t" "/run" one_sv_source p in
  SynthGowin_synth_cmd p "/run/netlist.edif" = "synth_gowin -top cpu"
  /\ output (result_of (run (task Gowin input) (sim 0 ["/run/netlist.json"])))
     = [].
Proof.
  cbv zeta.
  destruct (@unsupported_format_no_write_flag SimWorld SimCtxt Gowin
              (mkInput "t" "/run" one_sv_source
                 (some_params (Some "cpu") (Some "edif") None None None))
              (sim 0 ["/run/netlist.json"]) eq_refl eq_refl) as [Hc Ho].
  split; [exact Hc|].
  cbv zeta in Ho.
  destruct (output (result_of (run (task Gowin
              (mkInput "t" "/run" one_sv_source
                 (some_params (Some "cpu") (Some "edif") None None None)))
              (sim 0 ["/run/netlist.json"])))) as [|a l] eqn:E;
    [reflexivity|].
  exfalso. assert (Hne : a :: l <> []) by discriminate.
  apply (proj1 Ho) in Hne. destruct Hne as [_ Hne].
  vm_compute in Hne. intuition discriminate.
Defined.

(** C7 as stated fails: the Gowin variant with format [edif], not one of
    this family's formats, and a trailing caller directive that writes
    [netlist.edif]; the tool exits with status 0, the file is there, and the
    artifact is produced. *)
Lemma unsupported_format_artifact_counterexample :
  let p := some_params (Some "cpu") (Some "edif") None None
                       (Some ["write_edif /run/netlist.edif"]) in
  let input := mkInput "t" "/run" one_sv_source p in
  let r := run (task Gowin input) (sim 0 ["/run/netlist.edif"]) in
  ~ (supported Gowin p = false ->
     family_synth_cmd Gowin p (netlist_path p "/run") = family_flags Gowin p
     /\ output (result_of r) = []).
Proof.
  cbv zeta. intros H. destruct (H eq_refl) as [_ Ho].
  vm_compute in Ho. discriminate Ho.
Qed.

(* ------------------------------------------------------------------ *)
(** ** The directive composers *)

Lemma write_extra_args_map (fp : File) (extra_args : list string) :
  write_extra_args fp extra_args
  = fp ++ map (fun arg => (arg ++ nl)%string) extra_args.
Proof. unfold write_extra_args. apply fold_write_map. Qed.

Lemma write_read_cmds_map (fp : File) (sources : Sources)
    (incdirs : list string) :
  _write_read_cmds fp sources incdirs
  = fp ++ map (fun d => ("read_verilog -incdir " ++ d ++ nl)%string) incdirs
       ++ map (fun s : string * bool =>
                 ("read_verilog" ++ (if snd s then " -sv" else "") ++ " "
                  ++ fst s ++ nl)%string) sources.
Proof.
  unfold _write_read_cmds. cbv zeta.
  rewrite fold_write_map, app_assoc.
  apply (fold_write_pairs
           (fun path (is_sv : bool) =>
              ("read_verilog" ++ (if is_sv then " -sv" else "") ++ " "
               ++ path ++ nl)%string)).
Qed.

Lemma formal_reads_map (fp : File) (sources : Sources)
    (incdirs : list string) :
  FormalPrepare_reads fp sources incdirs
  = fp ++ map (fun d => ("read_verilog -incdir " ++ d ++ nl)%string) incdirs
       ++ map (fun s : string * bool =>
                 ("read_verilog -formal" ++ (if snd s then " -sv" else "")
                  ++ " " ++ fst s ++ nl)%string) sources.
Proof.
  unfold FormalPrepare_reads. cbv zeta.
  rewrite fold_write_map, app_assoc.
  apply (fold_write_pairs
           (fun path (is_sv : bool) =>
              ("read_verilog -formal" ++ (if is_sv then " -sv" else "")
               ++ " " ++ path ++ nl)%string)).
Qed.

(** [os.path.join] on a run directory that is not empty and has no
    trailing separator, and a file name. *)
Lemma os_path_join_plain (rd f : string) :
  nonempty rd = true -> endswith_sep rd = false -> startswith "/" f = false ->
  os_path_join rd f = (rd ++ "/" ++ f)%string.
Proof. unfold os_path_join. now intros -> -> ->. Qed.

Lemma netlist_format_given (p : Params) (f : string) :
  output_format p = Some f -> nonempty f = true -> netlist_format p = f.
Proof. unfold netlist_format, py_or. now intros -> ->. Qed.

(** C1.  Scenario 1: the generic variant on the single SystemVerilog source
    [top.sv] of base directory [/d] (no include directory, no library), with
    top module [top], format [json] and no optional flag.  The script
    consists of the lines [read_verilog -sv /d/top.sv], [synth -top top],
    [opt_clean], [stat] and [write_json <rundir>/netlist.json], in this
    order, followed by the caller's trailing directives if any; it is what
    the run writes to [synth.ys].  When the tool exits with status 0 and the
    predicted file exists, one artifact is produced and its attribute list is
    exactly [format=json], [top=top]. *)
Theorem scenario1_generic_json :
  forall (W : Type) (C : Ctxt W) (w : W) (nm rd : string) (p : Params),
    top p = Some "top" ->
    output_format p = Some "json" ->
    truthy (flatten p) = false ->
    truthy (nofsm p) = false ->
    truthy (noabc p) = false ->
    truthy (retime p) = false ->
    let input := mkInput nm rd one_sv_source p in
    let r := run (Synth input) w in
    let lines : list string :=
      [("read_verilog -sv /d/top.sv" ++ nl)%string;
       ("synth -top top" ++ nl)%string;
       ("opt_clean" ++ nl)%string;
       ("stat" ++ nl)%string;
       ("write_json " ++ os_path_join rd "netlist.json" ++ nl)%string] in
    let trailing :=
      map (fun arg => (arg ++ nl)%string) (list_or_empty (args p)) in
    Synth_script (_collect_rtl (inputs input)) p rd = lines ++ trailing
    /\ writes (transcript_of r)
       = [(os_path_join rd "synth.ys", content (lines ++ trailing))]
    /\ ((exists cmd lf, In (EvExec cmd lf 0%Z) (transcript_of r)) ->
        isfile (os_path_join rd "netlist.json") (snd (fst r)) = true ->
        exists a, output (result_of r) = [a]
                  /\ attributes a = ["format=json"; "top=top"]).
Proof.
  intros W C w nm rd p Ht Hf Hfl Hfs Hab Hre input r lines trailing.
  pose proof (netlist_format_given p Hf eq_refl) as Hnf.
  assert (Hs : Synth_script (_collect_rtl (inputs input)) p rd
               = lines ++ trailing).
  { change (_collect_rtl (inputs input)) with
      (([("/d/top.sv", true)], [], []) : Classified).
    unfold Synth_script, Synth_synth_cmd, netlist_path, netlist_file.
    cbv zeta. rewrite write_extra_args_map, write_read_cmds_map.
    rewrite Hnf, Ht, Hfl, Hfs, Hab, Hre. reflexivity. }
  split; [exact Hs|]. split.
  - subst r. change (Synth input) with (task Generic input).
    rewrite run_writes, <- Hs. reflexivity.
  - intros [cmd [lf Hex]] Hfile. subst r input.
    change (Synth ?i) with (task Generic i) in *.
    pose proof (run_exec_status Generic _ w _ _ _ Hex) as Hst.
    rewrite run_task in Hst, Hfile |- *.
    unfold result_of in *; cbn [fst snd status output] in *.
    cbn [rundir params out_path_of gate] in *.
    unfold netlist_path, netlist_file in *. rewrite Hnf in *.
    cbn [append] in *. rewrite Hst, Hfile. cbn [Z.eqb andb].
    eexists; split; [reflexivity|].
    unfold artifact_of; cbn [attributes params format_tag target_tags app].
    unfold top_attr. rewrite Hnf, Ht. reflexivity.
Qed.

Lemma scenario1_generic_json_witness :
  let p := some_params (Some "top") (Some "json") None None None in
  let input := mkInput "t" "/run" one_sv_source p in
  let r := run (Synth input) (sim 0 ["/run/netlist.json"]) in
  content (Synth_script (_collect_rtl (inputs input)) p "/run")
  = ("read_verilog -sv /d/top.sv" ++ nl ++ "synth -top top" ++ nl
     ++ "opt_clean" ++ nl ++ "stat" ++ nl
     ++ "write_json /run/netlist.json" ++ nl)%string
  /\ exists a, output (result_of r) = [a]
               /\ attributes a = ["format=json"; "top=top"].
Proof.
  cbv zeta.
  destruct (@scenario1_generic_json SimWorld SimCtxt
              (sim 0 ["/run/netlist.json"]) "t" "/run"
              (some_params (Some "top") (Some "json") None None None)
              eq_refl eq_refl eq_refl eq_refl eq_refl eq_refl)
    as (Hs & _ & Ha).
  split.
  - rewrite Hs. reflexivity.
  - apply Ha; [|reflexivity].
    exists ["yosys"; "-l"; "synth.log"; "/run/synth.ys"], "synth.log".
    vm_compute. right; left; reflexivity.
Defined.

(** C6.  Scenario 2: the iCE40 variant with the device unset, top module
    [cpu], [dff] set, no other optional flag and format [blif].  The
    synthesis directive is exactly
    [synth_ice40 -device hx -top cpu -dff -blif <rundir>/netlist.blif],
    where the path is [netlist.blif] joined to the run directory (the run
    directory, a separator and the file name, for a run directory that is
    not empty and does not end with a separator), and this directive is a
    line of the script. *)
Theorem scenario2_ice40_directive :
  forall (p : Params) (rd : string) (c : Classified),
    truthy_str (device p) = false ->
    top p = Some "cpu" ->
    truthy (dff p) = true ->
    truthy (retime p) = false ->
    truthy (nocarry p) = false ->
    truthy (nobram p) = false ->
    truthy (dsp p) = false ->
    truthy (abc9 p) = false ->
    output_format p = Some "blif" ->
    SynthIce40_synth_cmd p (netlist_path p rd)
    = ("synth_ice40 -device hx -top cpu -dff -blif "
       ++ os_path_join rd "netlist.blif")%string
    /\ In (SynthIce40_synth_cmd p (netlist_path p rd) ++ nl)%string
          (SynthIce40_script c p rd)
    /\ (nonempty rd = true -> endswith_sep rd = false ->
        SynthIce40_synth_cmd p (netlist_path p rd)
        = ("synth_ice40 -device hx -top cpu -dff -blif " ++ rd
           ++ "/netlist.blif")%string).
Proof.
  intros p rd [[sources incdirs] libs] Hd Ht Hdff Hre Hnc Hnb Hds Hab Hf.
  pose proof (netlist_format_given p Hf eq_refl) as Hnf.
  assert (Hdev : ice40_device p = "hx").
  { unfold ice40_device, py_or, truthy_str in *.
    destruct (device p); [now rewrite Hd|reflexivity]. }
  assert (Hcmd : SynthIce40_synth_cmd p (netlist_path p rd)
                 = ("synth_ice40 -device hx -top cpu -dff -blif "
                    ++ os_path_join rd "netlist.blif")%string).
  { unfold SynthIce40_synth_cmd, SynthIce40_flags, netlist_path, netlist_file.
    cbv zeta. rewrite Hnf, Hdev, Ht, Hdff, Hre, Hnc, Hnb, Hds, Hab.
    reflexivity. }
  split; [exact Hcmd|]. split.
  - unfold SynthIce40_script. cbv zeta.
    rewrite write_extra_args_map. unfold fp_write.
    apply in_or_app; left. apply in_or_app; right. left; reflexivity.
  - intros Hne He. rewrite Hcmd.
    now rewrite (os_path_join_plain rd "netlist.blif" Hne He eq_refl).
Qed.

Lemma scenario2_ice40_directive_witness :
  let p := some_params (Some "cpu") (Some "blif") None (Some true) None in
  SynthIce40_synth_cmd p (netlist_path p "/run")
  = "synth_ice40 -device hx -top cpu -dff -blif /run/netlist.blif".
Proof.
  cbv zeta.
  apply (proj2 (proj2 (scenario2_ice40_directive
           (some_params (Some "cpu") (Some "blif") None (Some true) None)
           "/run" ([], [], [])
           eq_refl eq_refl eq_refl eq_refl eq_refl eq_refl eq_refl eq_refl
           eq_refl)));
    reflexivity.
Defined.

(** The script of the formal variant, directive by directive. *)
Lemma FormalPrepare_script_lines (sources : Sources)
    (incdirs libs : list string) (p : Params) (rd : string) :
  FormalPrepare_script (sources, incdirs, libs) p rd
  = map (fun d => ("read_verilog -incdir " ++ d ++ nl)%string) incdirs
    ++ map (fun s : string * bool =>
              ("read_verilog -formal" ++ (if snd s then " -sv" else "")
               ++ " " ++ fst s ++ nl)%string) sources
    ++ [(FormalPrepare_hierarchy p ++ nl)%string;
        ("proc" ++ nl)%string; ("opt" ++ nl)%string;
        ("memory -nordff -nomap" ++ nl)%string; ("opt -fast" ++ nl)%string;
        (FormalPrepare_smt2_cmd p ++ " " ++ model_path rd ++ nl)%string]
    ++ map (fun arg => (arg ++ nl)%string) (list_or_empty (args p)).
Proof.
  unfold FormalPrepare_script; cbv zeta.
  rewrite write_extra_args_map, formal_reads_map. unfold fp_write.
  cbn [app]. now rewrite <- !app_assoc.
Qed.

(** C4, as the code has it.  In the script of the formal variant the
    directives come in this order: one [read_verilog -incdir <dir>] per
    include directory, then one read directive per source, then the
    hierarchy directive.  The read directive of every source, whatever its
    source type, is [read_verilog -formal <path>] (with [-sv] after
    [-formal] for a SystemVerilog source) and so carries the formal flag;
    the directives of the include directories are written without it. *)
Theorem formal_source_reads_carry_flag :
  forall (sources : Sources) (incdirs libs : list string) (p : Params)
         (rd : string),
    let script := FormalPrepare_script (sources, incdirs, libs) p rd in
    (forall i path is_sv,
        nth_error sources i = Some (path, is_sv) ->
        exists d,
          nth_error script (length incdirs + i) = Some d
          /\ d = ("read_verilog -formal" ++ (if is_sv then " -sv" else "")
                  ++ " " ++ path ++ nl)%string
          /\ is_read_directive d = true
          /\ carries_formal d = true)
    /\ (forall i dir,
          nth_error incdirs i = Some dir ->
          nth_error script i
          = Some ("read_verilog -incdir " ++ dir ++ nl)%string)
    /\ nth_error script (length incdirs + length sources)
       = Some (FormalPrepare_hierarchy p ++ nl)%string.
Proof.
  intros sources incdirs libs p rd script. subst script.
  rewrite FormalPrepare_script_lines.
  set (inc := map _ incdirs). set (srcs := map _ sources).
  assert (Li : length inc = length incdirs) by apply length_map.
  assert (Ls : length srcs = length sources) by apply length_map.
  split; [|split].
  - intros i path is_sv Hn.
    eexists. split; [|split; [reflexivity|]].
    + rewrite nth_error_app2 by lia.
      replace (length incdirs + i - length inc)%nat with i by lia.
      rewrite nth_error_app1
        by (rewrite Ls; apply nth_error_Some; congruence).
      subst srcs. rewrite nth_error_map, Hn. reflexivity.
    + split; destruct is_sv; reflexivity.
  - intros i dir Hn.
    rewrite nth_error_app1
      by (rewrite Li; apply nth_error_Some; congruence).
    subst inc. now rewrite nth_error_map, Hn.
  - rewrite nth_error_app2 by lia.
    replace (length incdirs + length sources - length inc)%nat
      with (length srcs) by lia.
    rewrite nth_error_app2 by lia.
    now rewrite Nat.sub_diag.
Qed.

Lemma formal_source_reads_carry_flag_witness :
  let script :=
    FormalPrepare_script ([("/d/a.v", false); ("/d/b.sv", true)], ["/i"], [])
                         no_params "/run" in
  exists d,
    nth_error script 2 = Some d
    /\ d = ("read_verilog -formal -sv /d/b.sv" ++ nl)%string
    /\ is_read_directive d = true
    /\ carries_formal d = true.
Proof.
  cbv zeta.
  apply (proj1 (formal_source_reads_carry_flag
                  [("/d/a.v", false); ("/d/b.sv", true)] ["/i"] []
                  no_params "/run") 1%nat "/d/b.sv" true).
  reflexivity.
Defined.

(** C4 as stated fails on the include directories: the formal script for a
    source collection with an include directory has the read directive
    [read_verilog -incdir /d/inc], which does not carry the formal flag. *)
Lemma formal_incdir_read_counterexample :
  let script :=
    FormalPrepare_script (_collect_rtl mixed_inputs) no_params "/run" in
  ~ (forall d, In d script ->
               is_read_directive d = true -> carries_formal d = true).
Proof.
  cbv zeta. intros H.
  specialize (H ("read_verilog -incdir /d/inc" ++ nl)%string).
  assert (E : carries_formal ("read_verilog -incdir /d/inc" ++ nl) = false)
    by reflexivity.
  rewrite H in E; [discriminate E| |reflexivity].
  vm_compute. left; reflexivity.
Qed.

(* ------------------------------------------------------------------ *)
(** ** Optional flags *)

Lemma words_not_nil (s : string) : words s <> [].
Proof.
  destruct s as [|c s]; simpl; [discriminate|].
  destruct (Ascii.eqb c " "); [discriminate|].
  destruct (words s); discriminate.
Qed.

Lemma words_app_space (a b : string) :
  words (a ++ String " " b) = words a ++ words b.
Proof.
  induction a as [|c a IH]; [reflexivity|].
  cbn [append words]. destruct (Ascii.eqb c " ").
  - now rewrite IH.
  - rewrite IH. pose proof (words_not_nil a) as Hn.
    destruct (words a); [congruence|reflexivity].
Qed.

Lemma words_add_if (b : bool) (cmd f : string) :
  words (add_if b cmd (String " " f))
  = words cmd ++ (if b then words f else []).
Proof.
  destruct b; simpl; [apply words_app_space|now rewrite app_nil_r].
Qed.

Lemma words_add_top (b : bool) (cmd x : string) :
  words (add_if b cmd (" -top " ++ x))
  = words cmd ++ (if b then "-top" :: words x else []).
Proof. apply (words_add_if b cmd ("-top " ++ x)). Qed.

Lemma words_write_flag (a f x : string) :
  words (a ++ String " " (f ++ String " " x)) = words a ++ words f ++ words x.
Proof. now rewrite !words_app_space. Qed.

Lemma words_Synth p :
  words (Synth_synth_cmd p)
  = ["synth"]
    ++ (if truthy_str (top p) then "-top" :: words (fmt (top p)) else [])
    ++ (if truthy (flatten p) then ["-flatten"] else [])
    ++ (if truthy (nofsm p) then ["-nofsm"] else [])
    ++ (if truthy (noabc p) then ["-noabc"] else [])
    ++ (if truthy (retime p) then ["-retime"] else []).
Proof.
  unfold Synth_synth_cmd; cbv zeta.
  rewrite !words_add_if, words_add_top. rewrite <- !app_assoc. reflexivity.
Qed.

Lemma words_Ice40_flags p :
  words (SynthIce40_flags p)
  = "synth_ice40" :: "-device" :: words (ice40_device p)
    ++ (if truthy_str (top p) then "-top" :: words (fmt (top p)) else [])
    ++ (if truthy (dff p) then ["-dff"] else [])
    ++ (if truthy (retime p) then ["-retime"] else [])
    ++ (if truthy (nocarry p) then ["-nocarry"] else [])
    ++ (if truthy (nobram p) then ["-nobram"] else [])
    ++ (if truthy (dsp p) then ["-dsp"] else [])
    ++ (if truthy (abc9 p) then ["-abc9"] else []).
Proof.
  unfold SynthIce40_flags; cbv zeta.
  rewrite !words_add_if, words_add_top. rewrite <- !app_assoc. reflexivity.
Qed.

Lemma words_Xilinx_flags p :
  words (SynthXilinx_flags p)
  = "synth_xilinx" :: "-family" :: words (xilinx_family p)
    ++ (if truthy_str (top p) then "-top" :: words (fmt (top p)) else [])
    ++ (if truthy (flatten p) then ["-flatten"] else [])
    ++ (if truthy (dff p) then ["-dff"] else [])
    ++ (if truthy (retime p) then ["-retime"] else [])
    ++ (if truthy (nobram p) then ["-nobram"] else [])
    ++ (if truthy (nodsp p) then ["-nodsp"] else [])
    ++ (if truthy (noiopad p) then ["-noiopad"] else [])
    ++ (if truthy (noclkbuf p) then ["-noclkbuf"] else [])
    ++ (if truthy (abc9 p) then ["-abc9"] else []).
Proof.
  unfold SynthXilinx_flags; cbv zeta.
  rewrite !words_add_if, words_add_top. rewrite <- !app_assoc. reflexivity.
Qed.

Lemma words_Lattice_flags p :
  words (SynthLattice_flags p)
  = "synth_lattice" :: "-family" :: words (lattice_family p)
    ++ (if truthy_str (top p) then "-top" :: words (fmt (top p)) else [])
    ++ (if truthy (dff p) then ["-dff"] else [])
    ++ (if truthy (retime p) then ["-retime"] else []).
Proof.
  unfold SynthLattice_flags; cbv zeta.
  rewrite !words_add_if, words_add_top. rewrite <- !app_assoc. reflexivity.
Qed.

Lemma words_Gowin_flags p :
  words (SynthGowin_flags p)
  = ["synth_gowin"]
    ++ (if truthy_str (top p) then "-top" :: words (fmt (top p)) else []).
Proof.
  unfold SynthGowin_flags; cbv zeta. now rewrite words_add_top.
Qed.

Lemma words_smt2 p (path : string) :
  words (FormalPrepare_smt2_cmd p ++ " " ++ path)
  = ["write_smt2"]
    ++ (if truthy (bv p) then ["-bv"] else [])
    ++ (if truthy (mem p) then ["-mem"] else [])
    ++ (if truthy (wires p) then ["-wires"] else [])
    ++ words path.
Proof.
  change (" " ++ path)%string with (String " " path).
  rewrite words_app_space.
  unfold FormalPrepare_smt2_cmd; cbv zeta.
  rewrite !words_add_if. rewrite <- !app_assoc. reflexivity.
Qed.

Lemma words_hierarchy p :
  words (FormalPrepare_hierarchy p)
  = if truthy_str (top p) then "hierarchy" :: "-top" :: words (fmt (top p))
    else ["hierarchy"; "-auto-top"].
Proof. unfold FormalPrepare_hierarchy. now destruct (truthy_str (top p)). Qed.

Lemma words_Ice40 p (path : string) :
  words (SynthIce40_synth_cmd p path)
  = words (SynthIce40_flags p)
    ++ (if netlist_format p =? "json" then "-json" :: words path
        else if netlist_format p =? "blif" then "-blif" :: words path
        else if netlist_format p =? "edif" then "-edif" :: words path
        else []).
Proof.
  unfold SynthIce40_synth_cmd; cbv zeta.
  repeat match goal with
  | |- context [netlist_format p =? ?s] => destruct (netlist_format p =? s)
  end;
  first [ exact (words_write_flag _ "-json" path)
        | exact (words_write_flag _ "-blif" path)
        | exact (words_write_flag _ "-edif" path)
        | exact (words_write_flag _ "-vout" path)
        | now rewrite app_nil_r ].
Qed.

Lemma words_Xilinx p (path : string) :
  words (SynthXilinx_synth_cmd p path)
  = words (SynthXilinx_flags p)
    ++ (if netlist_format p =? "json" then "-json" :: words path
        else if netlist_format p =? "edif" then "-edif" :: words path
        else if netlist_format p =? "blif" then "-blif" :: words path
        else []).
Proof.
  unfold SynthXilinx_synth_cmd; cbv zeta.
  repeat match goal with
  | |- context [netlist_format p =? ?s] => destruct (netlist_format p =? s)
  end;
  first [ exact (words_write_flag _ "-json" path)
        | exact (words_write_flag _ "-blif" path)
        | exact (words_write_flag _ "-edif" path)
        | exact (words_write_flag _ "-vout" path)
        | now rewrite app_nil_r ].
Qed.

Lemma words_Lattice p (path : string) :
  words (SynthLattice_synth_cmd p path)
  = words (SynthLattice_flags p)
    ++ (if netlist_format p =? "json" then "-json" :: words path
        else if netlist_format p =? "edif" then "-edif" :: words path
        else []).
Proof.
  unfold SynthLattice_synth_cmd; cbv zeta.
  repeat match goal with
  | |- context [netlist_format p =? ?s] => destruct (netlist_format p =? s)
  end;
  first [ exact (words_write_flag _ "-json" path)
        | exact (words_write_flag _ "-blif" path)
        | exact (words_write_flag _ "-edif" path)
        | exact (words_write_flag _ "-vout" path)
        | now rewrite app_nil_r ].
Qed.

Lemma words_Gowin p (path : string) :
  words (SynthGowin_synth_cmd p path)
  = words (SynthGowin_flags p)
    ++ (if netlist_format p =? "json" then "-json" :: words path
        else if netlist_format p =? "verilog" then "-vout" :: words path
        else []).
Proof.
  unfold SynthGowin_synth_cmd; cbv zeta.
  repeat match goal with
  | |- context [netlist_format p =? ?s] => destruct (netlist_format p =? s)
  end;
  first [ exact (words_write_flag _ "-json" path)
        | exact (words_write_flag _ "-blif" path)
        | exact (words_write_flag _ "-edif" path)
        | exact (words_write_flag _ "-vout" path)
        | now rewrite app_nil_r ].
Qed.

(** The words of the flag-carrying directives of a variant. *)
Lemma flag_present_words (flag : string) (v : Variant) (p : Params)
    (rd : string) :
  flag_present flag v p rd
  <-> In flag (flat_map words (flag_directives v p rd)).
Proof.
  unfold flag_present. rewrite in_flat_map. reflexivity.
Qed.

Ltac split_format :=
  repeat match goal with
  | |- context [netlist_format ?p =? ?s] =>
      let E := fresh "E" in
      destruct (String.eqb_spec (netlist_format p) s) as [E|E];
      [rewrite E in *; cbn [String.eqb Ascii.eqb Bool.eqb] in *|]
  end.

(** Every way a word can be in a list built with [++], [::] and [if]. *)
Ltac in_cases H :=
  repeat match type of H with
  | In _ (_ ++ _) => apply in_app_or in H; destruct H as [H|H]
  | In _ (if ?b then _ else _) => destruct b
  | In _ (_ :: _) => destruct H as [H|H]
  | In _ [] => destruct H
  end.

(** Find a word in such a list. *)
Ltac in_find :=
  lazymatch goal with
  | |- In _ (_ :: _) => first [left; reflexivity | right; in_find]
  | |- In _ (_ ++ _) =>
      apply in_or_app; first [left; in_find | right; in_find]
  | |- In _ (if true then _ else _) => cbv iota; in_find
  end.

(** C3, as the code has it.  For every variant and every optional flag of
    its table, provided the strings the caller supplies for interpolation
    (top module, device or family, output path) do not themselves contain
    the flag as a word: the flag is a word of its directive if and only if
    the test of its parameter succeeds, that is, the boolean parameter is
    true, the top module is a non-empty string, or, for an embedded write
    flag, the output format in effect is the flag's format.  A flag whose
    parameter is absent is not emitted, with one exception: the output
    format in effect when [output_format] is absent is [json], so the
    embedded [-json] flag is emitted then. *)
Theorem optional_flag_iff_parameter :
  forall (v : Variant) (flag : string) (k : FlagParam) (p : Params)
         (rd : string),
    In (flag, k) (optional_flags v) ->
    (forall t, In t (interpolated v p rd) -> ~ In flag (words t)) ->
    (flag_present flag v p rd <-> flag_on k p = true)
    /\ (param_absent k p -> flag_present flag v p rd -> k = OnFormat "json").
Proof.
  intros v flag k p rd Hin Hclean.
  assert (Hiff : flag_present flag v p rd <-> flag_on k p = true).
  { rewrite flag_present_words.
    destruct v; cbn [optional_flags flag_directives flat_map interpolated] in *;
      rewrite ?app_nil_r;
      rewrite ?words_Synth, ?words_Ice40, ?words_Xilinx, ?words_Lattice,
        ?words_Gowin, ?words_Ice40_flags, ?words_Xilinx_flags,
        ?words_Lattice_flags, ?words_Gowin_flags, ?words_smt2,
        ?words_hierarchy.
    all: repeat (destruct Hin as [Hin|Hin];
                 [injection Hin as <- <-; cbn [flag_on]|]);
      try destruct Hin.
    all: repeat match goal with
         | H : forall t, In t (?x :: ?l) -> ~ In ?f (words t) |- _ =>
             let H1 := fresh "Hc" in
             pose proof (H x (or_introl eq_refl)) as H1;
             let H2 := fresh "Hr" in
             assert (H2 : forall t, In t l -> ~ In f (words t))
               by (intros t0 Ht0; apply H; right; exact Ht0);
             clear H
         end.
    all: split_format.
    all: (split;
          [ intros H; in_cases H;
            solve [ discriminate | contradiction | reflexivity ]
          | intros H; try discriminate H; try rewrite H; in_find ]). }
  split; [exact Hiff|].
  intros Habs Hp. apply Hiff in Hp.
  destruct k as [get| |f]; cbn [param_absent flag_on] in *.
  - rewrite Habs in Hp. discriminate Hp.
  - rewrite Habs in Hp. discriminate Hp.
  - unfold netlist_format in Hp. rewrite Habs in Hp. cbn [py_or] in Hp.
    apply String.eqb_eq in Hp. now subst f.
Qed.

Lemma optional_flag_iff_parameter_witness :
  let p := some_params (Some "cpu") (Some "blif") None (Some true) None in
  flag_present "-dff" Ice40 p "/run"
  /\ ~ flag_present "-retime" Ice40 p "/run".
Proof.
  cbv zeta. split.
  - apply (proj1 (@optional_flag_iff_parameter Ice40 "-dff" (OnBool dff)
                    (some_params (Some "cpu") (Some "blif") None (Some true)
                                 None) "/run"
                    (or_intror (or_introl eq_refl))
                    ltac:(intros t [<-|[<-|[<-|[]]]]; vm_compute;
                          intuition discriminate))).
    reflexivity.
  - intros H.
    apply (proj1 (@optional_flag_iff_parameter Ice40 "-retime" (OnBool retime)
                    (some_params (Some "cpu") (Some "blif") None (Some true)
                                 None) "/run"
                    (or_intror (or_intror (or_introl eq_refl)))
                    ltac:(intros t [<-|[<-|[<-|[]]]]; vm_compute;
                          intuition discriminate))) in H.
    discriminate H.
Defined.

(** C3 as stated fails for the embedded write flag: in the iCE40 variant
    with every parameter absent, [output_format] among them, the synthesis
    directive is [synth_ice40 -device hx -json /run/netlist.json], so the
    [-json] flag is emitted although its parameter is absent. *)
Lemma absent_format_json_flag_counterexample :
  ~ (param_absent (OnFormat "json") no_params ->
     ~ flag_present "-json" Ice40 no_params "/run").
Proof.
  intros H. apply H; [reflexivity|].
  exists "synth_ice40 -device hx -json /run/netlist.json".
  split; [left; reflexivity|]. vm_compute. tauto.
Qed.

(* ------------------------------------------------------------------ *)
(** ** Further properties of the classifier *)

(** X1.  Classifying a concatenation of input lists gives, list by list,
    the concatenation of the classifications: the result for a collection
    does not depend on the collections before or after it. *)
Theorem collect_rtl_app :
  forall xs ys : list InputItem,
    _collect_rtl (xs ++ ys)
    = (fst (fst (_collect_rtl xs)) ++ fst (fst (_collect_rtl ys)),
       snd (fst (_collect_rtl xs)) ++ snd (fst (_collect_rtl ys)),
       snd (_collect_rtl xs) ++ snd (_collect_rtl ys)).
Proof.
  intros xs ys. rewrite !collect_rtl_classify. unfold Spec.classify.
  cbn [fst snd]. now rewrite !flat_map_app.
Qed.

Lemma kind_of_rtl (fs : InputItem) :
  item_type fs = "std.FileSet" ->
  item_filetype fs = "verilogSource"
  \/ item_filetype fs = "systemVerilogSource" ->
  Spec.sources_of fs
  = map (fun f => (os_path_join (item_basedir fs) f,
                   item_filetype fs =? "systemVerilogSource"))
        (item_files fs).
Proof.
  intros Ht [Hf|Hf]; unfold Spec.sources_of, Spec.kind_of;
    rewrite Ht, Hf; reflexivity.
Qed.

(** X2.  A member file of a source collection that is given by an absolute
    path is listed as a source under that very path, whatever the base
    directory of its collection. *)
Theorem absolute_member_kept_verbatim :
  forall (inputs : list InputItem) (fs : InputItem) (f : string),
    In fs inputs ->
    item_type fs = "std.FileSet" ->
    item_filetype fs = "verilogSource"
    \/ item_filetype fs = "systemVerilogSource" ->
    In f (item_files fs) ->
    startswith "/" f = true ->
    In (f, item_filetype fs =? "systemVerilogSource")
       (fst (fst (_collect_rtl inputs))).
Proof.
  intros inputs fs f Hin Ht Hk Hf Habs.
  rewrite collect_rtl_classify. unfold Spec.classify; cbn [fst].
  apply in_flat_map. exists fs. split; [exact Hin|].
  rewrite (kind_of_rtl fs Ht Hk). apply in_map_iff. exists f.
  split; [|exact Hf]. unfold os_path_join. now rewrite Habs.
Qed.

Lemma absolute_member_kept_verbatim_witness :
  In ("/abs/core.sv", true)
     (fst (fst (_collect_rtl
        [mkItem "std.FileSet" "systemVerilogSource" "/d"
                ["top.sv"; "/abs/core.sv"] []]))).
Proof.
  apply (@absolute_member_kept_verbatim
           [mkItem "std.FileSet" "systemVerilogSource" "/d"
                   ["top.sv"; "/abs/core.sv"] []]
           (mkItem "std.FileSet" "systemVerilogSource" "/d"
                   ["top.sv"; "/abs/core.sv"] [])
           "/abs/core.sv").
  - left; reflexivity.
  - reflexivity.
  - right; reflexivity.
  - right; left; reflexivity.
  - reflexivity.
Defined.

(** X3.  Every source of the result comes from a member file of a
    [std.FileSet] collection of the input: its path is that file joined to
    the base directory of the collection, and it is marked as SystemVerilog
    exactly when the file type of the collection is [systemVerilogSource]
    (and the file type is [verilogSource] otherwise). *)
Theorem source_provenance :
  forall (inputs : list InputItem) (path : string) (is_sv : bool),
    In (path, is_sv) (fst (fst (_collect_rtl inputs))) ->
    exists fs f,
      In fs inputs /\ In f (item_files fs)
      /\ item_type fs = "std.FileSet"
      /\ item_filetype fs
         = (if is_sv then "systemVerilogSource" else "verilogSource")
      /\ path = os_path_join (item_basedir fs) f.
Proof.
  intros inputs path is_sv H.
  rewrite collect_rtl_classify in H. unfold Spec.classify in H; cbn [fst] in H.
  apply in_flat_map in H. destruct H as (fs & Hin & Hs).
  unfold Spec.sources_of, Spec.kind_of in Hs.
  destruct (String.eqb_spec (item_type fs) "std.FileSet") as [Ht|Ht];
    cbn [negb] in Hs; [|destruct Hs].
  repeat match type of Hs with
  | context [item_filetype fs =? ?s] =>
      let E := fresh "E" in
      destruct (String.eqb_spec (item_filetype fs) s) as [E|E]
  end; try destruct Hs;
    apply in_map_iff in Hs; destruct Hs as (f & Hp & Hf);
    injection Hp as <- <-; exists fs, f; auto.
Qed.

Lemma source_provenance_witness :
  exists fs f,
    In fs mixed_inputs /\ In f (item_files fs)
    /\ item_type fs = "std.FileSet"
    /\ item_filetype fs = "verilogSource"
    /\ "/d/a.v" = os_path_join (item_basedir fs) f.
Proof.
  apply (@source_provenance mixed_inputs "/d/a.v" false).
  vm_compute. right; left; reflexivity.
Defined.

(** White space and [strip]. *)
Lemma has_nonspace_app (a b : string) :
  has_nonspace (a ++ b) = has_nonspace a || has_nonspace b.
Proof.
  induction a as [|c a IH]; [reflexivity|].
  cbn [append has_nonspace]. now rewrite IH, orb_assoc.
Qed.

Lemma has_nonspace_rev (s : string) : has_nonspace (rev s) = has_nonspace s.
Proof.
  induction s as [|c s IH]; [reflexivity|].
  cbn [rev has_nonspace]. rewrite has_nonspace_app, IH.
  cbn [has_nonspace]. now rewrite orb_false_r, orb_comm.
Qed.

Lemma has_nonspace_lstrip (s : string) :
  has_nonspace (lstrip s) = has_nonspace s.
Proof.
  induction s as [|c s IH]; [reflexivity|].
  cbn [lstrip has_nonspace].
  destruct (isspace c) eqn:E; [exact IH|].
  cbn [has_nonspace]. now rewrite E.
Qed.

Lemma nonempty_lstrip (s : string) : nonempty (lstrip s) = has_nonspace s.
Proof.
  induction s as [|c s IH]; [reflexivity|].
  cbn [lstrip has_nonspace]. destruct (isspace c); [exact IH|reflexivity].
Qed.

Lemma nonempty_rev (s : string) : nonempty (rev s) = nonempty s.
Proof.
  destruct s as [|c s]; [reflexivity|].
  cbn [rev nonempty]. now destruct (rev s).
Qed.

Lemma nonempty_strip (s : string) : nonempty (strip s) = has_nonspace s.
Proof.
  unfold strip, rstrip.
  now rewrite nonempty_rev, nonempty_lstrip, has_nonspace_rev,
    has_nonspace_lstrip.
Qed.

(** X4.  An include-directory marker contributes its base directory, as it
    is written (not stripped, not joined to anything), exactly when the base
    directory has a code point that is not white space; its member files and
    include directories are never looked at.  A library collection without
    member files contributes its base directory under the same condition. *)
Theorem blank_basedir_dropped :
  forall (ty_files ty_incdirs : list string) (base : string),
    _collect_rtl [mkItem "std.FileSet" "verilogIncDir" base ty_files ty_incdirs]
    = ([], if has_nonspace base then [base] else [], [])
    /\ _collect_rtl [mkItem "std.FileSet" "libertyLib" base [] ty_incdirs]
       = ([], [], if has_nonspace base then [base] else []).
Proof.
  intros fl il base. split; unfold _collect_rtl; cbn [fold_left];
    unfold collect_one;
    cbn [item_type item_filetype item_basedir item_files item_incdirs];
    rewrite nonempty_strip; now destruct (has_nonspace base).
Qed.

(* ------------------------------------------------------------------ *)
(** ** The layout of the scripts *)

(** X5.  [_write_read_cmds] keeps what the file already holds, then writes
    one [read_verilog -incdir] directive per include directory, in order,
    and after all of them one [read_verilog] directive per source, in
    order, with [-sv] exactly for the SystemVerilog sources. *)
Theorem write_read_cmds_layout :
  forall (fp : File) (sources : Sources) (incdirs : list string),
    _write_read_cmds fp sources incdirs
    = fp ++ map (fun d => ("read_verilog -incdir " ++ d ++ nl)%string) incdirs
         ++ map (fun s : string * bool =>
                   if snd s then ("read_verilog -sv " ++ fst s ++ nl)%string
                   else ("read_verilog " ++ fst s ++ nl)%string) sources.
Proof.
  intros fp sources incdirs. rewrite write_read_cmds_map.
  do 2 f_equal. apply map_ext. now intros [path []].
Qed.

Lemma generic_write_chain (p : Params) (rd : string) (fp : File) :
  (if netlist_format p =? "json" then
     fp_write fp ("write_json " ++ netlist_path p rd ++ nl)
   else if netlist_format p =? "verilog" then
     fp_write fp ("write_verilog " ++ netlist_path p rd ++ nl)
   else if netlist_format p =? "blif" then
     fp_write fp ("write_blif " ++ netlist_path p rd ++ nl)
   else if netlist_format p =? "edif" then
     fp_write fp ("write_edif " ++ netlist_path p rd ++ nl)
   else if netlist_format p =? "rtlil" then
     fp_write fp ("write_rtlil " ++ netlist_path p rd ++ nl)
   else fp)
  = fp ++ generic_write p rd.
Proof.
  unfold generic_write, supported, fp_write.
  cbn [supported_formats existsb].
  repeat match goal with
  | |- context [netlist_format p =? ?s] =>
      let E := fresh "E" in
      destruct (String.eqb_spec (netlist_format p) s) as [E|E];
      [rewrite E; reflexivity|]
  end.
  cbn [orb]. now rewrite app_nil_r.
Qed.

(** The script every variant composes is its [layout]. *)
Lemma script_of_layout (v : Variant) (c : Classified) (p : Params)
    (rd : string) :
  script_of v c p rd = layout v c p rd.
Proof.
  destruct c as [[sources incdirs] libs].
  destruct v; cbn [script_of layout family_synth_cmd];
    unfold Synth_script, SynthIce40_script, SynthXilinx_script,
      SynthLattice_script, SynthGowin_script, Script_script; cbv zeta;
    rewrite ?write_extra_args_map, ?generic_write_chain.
  - rewrite write_read_cmds_map, (fold_write_map liberty_line).
    unfold fp_write. destruct libs as [|lib0 libs]; cbn [app];
      now rewrite <- ?app_assoc.
  - rewrite write_read_cmds_map. unfold fp_write. cbn [app].
    now rewrite <- ?app_assoc.
  - rewrite write_read_cmds_map. unfold fp_write. cbn [app].
    now rewrite <- ?app_assoc.
  - rewrite write_read_cmds_map. unfold fp_write. cbn [app].
    now rewrite <- ?app_assoc.
  - rewrite write_read_cmds_map. unfold fp_write. cbn [app].
    now rewrite <- ?app_assoc.
  - apply FormalPrepare_script_lines.
  - unfold fp_write. destruct (truthy (read_rtl p)); [|reflexivity].
    rewrite (fold_write_map liberty_line), write_read_cmds_map.
    cbn [app]. now rewrite <- ?app_assoc.
Qed.

(** X6.  The script of the generic variant, directive by directive: the
    read directives, one [read_liberty -lib] per library, the synthesis
    directive; when there is a library, [dfflibmap] and [abc] with the
    first library only; [opt_clean]; [stat], with the first library when
    there is one; for a format [f] among json, verilog, blif, edif and
    rtlil the directive [write_<f>] on the output path and for any other
    format no write directive; last, the caller's trailing directives. *)
Theorem generic_script_layout :
  forall (sources : Sources) (incdirs libs : list string) (p : Params)
         (rd : string),
    Synth_script (sources, incdirs, libs) p rd
    = map incdir_line incdirs ++ map source_line sources
      ++ map liberty_line libs
      ++ [(Synth_synth_cmd p ++ nl)%string]
      ++ match libs with
         | lib0 :: _ => [("dfflibmap -liberty " ++ lib0 ++ nl)%string;
                         ("abc -liberty " ++ lib0 ++ nl)%string]
         | [] => []
         end
      ++ [("opt_clean" ++ nl)%string]
      ++ [match libs with
          | lib0 :: _ => ("stat -liberty " ++ lib0 ++ nl)%string
          | [] => ("stat" ++ nl)%string
          end]
      ++ (if existsb (String.eqb (netlist_format p))
                     ["json"; "verilog"; "blif"; "edif"; "rtlil"]
          then [("write_" ++ netlist_format p ++ " " ++ netlist_path p rd
                 ++ nl)%string]
          else [])
      ++ map arg_line (list_or_empty (args p)).
Proof.
  intros sources incdirs libs p rd.
  change (Synth_script (sources, incdirs, libs) p rd)
    with (script_of Generic (sources, incdirs, libs) p rd).
  rewrite script_of_layout. cbn [layout]. now rewrite <- !app_assoc.
Qed.

(** X7.  The script of each of the four target variants is the read
    directives, one synthesis directive and the caller's trailing
    directives: the libraries of the input are not read and take no part
    in it. *)
Theorem family_script_layout :
  forall (v : Variant) (sources : Sources) (incdirs libs : list string)
         (p : Params) (rd : string),
    is_family v = true ->
    script_of v (sources, incdirs, libs) p rd
    = map incdir_line incdirs ++ map source_line sources
      ++ [(family_synth_cmd v p (netlist_path p rd) ++ nl)%string]
      ++ map arg_line (list_or_empty (args p)).
Proof.
  intros v sources incdirs libs p rd Hf. rewrite script_of_layout.
  destruct v; try discriminate Hf; cbn [layout]; now rewrite <- !app_assoc.
Qed.

Lemma family_script_layout_witness :
  script_of Gowin ([("/d/a.v", false)], ["/i"], ["/l/cells.lib"])
            (some_params (Some "cpu") None None None (Some ["stat"])) "/run"
  = [("read_verilog -incdir /i" ++ nl)%string;
     ("read_verilog /d/a.v" ++ nl)%string;
     ("synth_gowin -top cpu -json /run/netlist.json" ++ nl)%string;
     ("stat" ++ nl)%string].
Proof.
  apply (eq_trans
           (@family_script_layout Gowin [("/d/a.v", false)] ["/i"]
              ["/l/cells.lib"]
              (some_params (Some "cpu") None None None (Some ["stat"]))
              "/run" eq_refl)).
  reflexivity.
Defined.

(** X8.  The script of the formal variant: the include-directory
    directives, the source read directives, the hierarchy directive, then
    always [proc], [opt], [memory -nordff -nomap] and [opt -fast], then the
    [write_smt2] directive, whose target is [model.smt2] in the run
    directory whatever the output format parameter, and the caller's
    trailing directives.  The libraries of the input take no part in it. *)
Theorem formal_script_layout :
  forall (sources : Sources) (incdirs libs : list string) (p : Params)
         (rd : string),
    FormalPrepare_script (sources, incdirs, libs) p rd
    = map incdir_line incdirs ++ map formal_source_line sources
      ++ [(FormalPrepare_hierarchy p ++ nl)%string;
          ("proc" ++ nl)%string; ("opt" ++ nl)%string;
          ("memory -nordff -nomap" ++ nl)%string; ("opt -fast" ++ nl)%string;
          (FormalPrepare_smt2_cmd p ++ " " ++ os_path_join rd "model.smt2"
           ++ nl)%string]
      ++ map arg_line (list_or_empty (args p)).
Proof.
  intros sources incdirs libs p rd.
  change (FormalPrepare_script (sources, incdirs, libs) p rd)
    with (script_of Formal (sources, incdirs, libs) p rd).
  rewrite script_of_layout. reflexivity.
Qed.

(** X9.  The raw-script variant writes the caller's script body followed
    by a newline; before it, only when [read_rtl] is true, the read
    directives and one [read_liberty -lib] per library.  When [read_rtl] is
    absent or false the content of the file is the body and a newline,
    whatever the inputs. *)
Theorem raw_script_layout :
  forall (sources : Sources) (incdirs libs : list string) (p : Params)
         (rd : string),
    Script_script (sources, incdirs, libs) p rd
    = (if truthy (read_rtl p)
       then map incdir_line incdirs ++ map source_line sources
            ++ map liberty_line libs
       else [])
      ++ [(script p ++ nl)%string]
    /\ (truthy (read_rtl p) = false ->
        content (Script_script (sources, incdirs, libs) p rd)
        = (script p ++ nl)%string).
Proof.
  intros sources incdirs libs p rd.
  change (Script_script (sources, incdirs, libs) p rd)
    with (script_of RawScript (sources, incdirs, libs) p rd).
  rewrite script_of_layout. cbn [layout]. split.
  - now rewrite <- app_assoc.
  - now intros ->.
Qed.

Lemma raw_script_layout_witness :
  content (Script_script (_collect_rtl mixed_inputs)
                         (script_params (Some "json") "synth -top t") "/run")
  = ("synth -top t" ++ nl)%string.
Proof.
  apply (proj2 (@raw_script_layout
                  [("/d/b.v", false); ("/d/a.v", false); ("/d/b.v", false);
                   ("/d/a.v", false)]
                  ["/d/inc"; "/d/inc"; "/i"] ["/l/cells.lib"]
                  (script_params (Some "json") "synth -top t") "/run")).
  reflexivity.
Defined.

(** X10.  In every variant but the raw script, the caller's trailing
    directives are the end of the script, each followed by a newline, in
    the order given; an absent [args] is an empty list.  The raw script
    ignores [args]. *)
Theorem trailing_args_last :
  forall (v : Variant) (c : Classified) (p : Params) (rd : string),
    script_of v c p rd
    = script_of v c (set_args None p) rd
      ++ (if match v with RawScript => true | _ => false end then []
          else map (fun arg => (arg ++ nl)%string) (list_or_empty (args p))).
Proof.
  intros v [[sources incdirs] libs] p rd. rewrite !script_of_layout.
  destruct v; cbn [layout set_args args list_or_empty map];
    rewrite ?app_nil_r, <- ?app_assoc; reflexivity.
Qed.

(** Newline-terminated strings. *)
Lemma endswith_nl_app (a b : string) :
  endswith_nl b = true -> endswith_nl (a ++ b) = true.
Proof.
  intros Hb. induction a as [|c a IH]; [exact Hb|].
  cbn [append endswith_nl]. destruct (a ++ b)%string; [discriminate IH|exact IH].
Qed.

Lemma endswith_nl_content (l : File) :
  l <> [] -> Forall (fun d => endswith_nl d = true) l ->
  endswith_nl (content l) = true.
Proof.
  unfold content. induction l as [|x l IH]; [congruence|].
  intros _ Hall. inversion Hall as [|? ? Hx Hl]; subst.
  destruct l as [|y l]; [exact Hx|].
  change (String.concat "" (x :: y :: l))
    with (x ++ String.concat "" (y :: l))%string.
  apply endswith_nl_app. apply IH; [discriminate|exact Hl].
Qed.

Ltac ends_nl :=
  repeat first
    [ reflexivity
    | apply endswith_nl_app
    | match goal with |- endswith_nl (if ?b then _ else _) = true =>
        destruct b end
    | match goal with |- endswith_nl (match ?l with _ => _ end) = true =>
        destruct l end ].

Ltac forall_nl :=
  repeat first
    [ apply Forall_nil
    | apply Forall_app; split
    | apply Forall_cons
    | (apply Forall_forall; intros ? Hx; apply in_map_iff in Hx;
       destruct Hx as (? & <- & _))
    | match goal with |- Forall _ (if ?b then _ else _) => destruct b end
    | match goal with |- Forall _ (match ?l with _ => _ end) => destruct l end
    | solve [unfold incdir_line, source_line, formal_source_line,
               liberty_line, arg_line; ends_nl]
    ].

(** X11.  In every variant each string written to the script ends with a
    newline, at least one is written (also when the input has no source at
    all), and so the script file ends with a newline. *)
Theorem script_newline_terminated :
  forall (v : Variant) (c : Classified) (p : Params) (rd : string),
    Forall (fun d => endswith_nl d = true) (script_of v c p rd)
    /\ script_of v c p rd <> []
    /\ endswith_nl (content (script_of v c p rd)) = true.
Proof.
  intros v [[sources incdirs] libs] p rd.
  assert (H : Forall (fun d => endswith_nl d = true)
                     (script_of v (sources, incdirs, libs) p rd)
              /\ script_of v (sources, incdirs, libs) p rd <> []).
  { rewrite script_of_layout.
    destruct v; cbn [layout];
      (split;
       [ unfold generic_write; forall_nl
       | intros E;
         repeat (apply app_eq_nil in E; destruct E as [? E]);
         congruence ]). }
  destruct H as [Hall Hne]. repeat split; try assumption.
  now apply endswith_nl_content.
Qed.

(* ------------------------------------------------------------------ *)
(** ** Further properties of the runs *)

(** X13.  The output list of every run has at most one element, and it
    has one exactly when the tool exited with status 0, the existence test
    is not gated off (raw script without format) and the predicted output
    file is a file of the world the tool left behind.  In particular a run
    whose tool succeeds without leaving that file returns status 0 and an
    empty output. *)
Theorem artifact_iff_found :
  forall (W : Type) (C : Ctxt W) (v : Variant) (input : TaskDataInput)
         (w : W),
    let p := params input in
    let r := run (task v input) w in
    (length (output (result_of r)) <= 1)%nat
    /\ (output (result_of r) <> [] <->
        status (result_of r) = 0%Z /\ gate v p = true
        /\ isfile (out_path_of v p (rundir input)) (snd (fst r)) = true)
    /\ (output (result_of r) <> [] ->
        output (result_of r) = [artifact_of v input]).
Proof.
  intros W C v input w p r. subst r. rewrite run_task.
  unfold result_of; cbn [fst snd status output]. fold p.
  match goal with |- context [exec ?c ?l ?w0] =>
    destruct (exec c l w0) as [st w2] end; cbn [fst snd].
  destruct (Z.eqb_spec st 0) as [E|E]; cbn [andb].
  - destruct (gate v p); cbn [andb].
    + destruct (isfile (out_path_of v p (rundir input)) w2); cbn [length].
      * repeat split; auto; discriminate.
      * repeat split; auto; try congruence. intros (_ & _ & H); discriminate.
    + cbn [length]. repeat split; auto; try congruence.
      intros (_ & H & _); discriminate.
  - cbn [length]. repeat split; auto; try congruence. intros (H & _); congruence.
Qed.

Lemma artifact_iff_found_witness :
  let input := mkInput "t" "/run" one_sv_source no_params in
  let r := run (task Generic input) (sim 0 []) in
  status (result_of r) = 0%Z /\ output (result_of r) = [].
Proof.
  cbv zeta. split; [reflexivity|].
  destruct (@artifact_iff_found SimWorld SimCtxt Generic
              (mkInput "t" "/run" one_sv_source no_params) (sim 0 []))
    as (_ & Hiff & _).
  cbv zeta in Hiff.
  destruct (output (result_of (run (task Generic
              (mkInput "t" "/run" one_sv_source no_params)) (sim 0 []))))
    as [|a l]; [reflexivity|].
  assert (Hne : a :: l <> []) by discriminate.
  apply (proj1 Hiff) in Hne. destruct Hne as (_ & _ & Hfile).
  vm_compute in Hfile. discriminate Hfile.
Defined.

(** X14.  The artifact of a run names the file that was found: its source
    is the task name, its base directory the run directory, its file list
    has one name, and that name joined to the base directory is the path
    whose existence the run tested with a positive answer. *)
Theorem artifact_names_found_file :
  forall (W : Type) (C : Ctxt W) (v : Variant) (input : TaskDataInput)
         (w : W) (a : FileSet),
    In a (output (result_of (run (task v input) w))) ->
    src a = name input
    /\ basedir a = rundir input
    /\ filetype a = kind_tag v
    /\ exists f,
         files a = [f]
         /\ In (EvIsFile (os_path_join (basedir a) f) true)
               (transcript_of (run (task v input) w)).
Proof.
  intros W C v input w a Hin.
  destruct (run_output v input w) as [[Hf Ho]|[_ Ho]]; rewrite Ho in Hin;
    [|destruct Hin].
  destruct Hin as [<-|[]]. unfold artifact_of.
  cbn [src basedir filetype files]. repeat split.
  eexists; split; [reflexivity|].
  replace (os_path_join (rundir input) (out_file_of v (params input)))
    with (out_path_of v (params input) (rundir input))
    by (destruct v; reflexivity).
  exact Hf.
Qed.

Lemma artifact_names_found_file_witness :
  let input :=
    mkInput "job" "/run" one_sv_source
            (formal_params (Some "cpu") None None None) in
  let a := mkFileSet "job" "yosysSMT2" "/run" ["model.smt2"] ["top=cpu"] in
  src a = name input
  /\ basedir a = rundir input
  /\ filetype a = kind_tag Formal
  /\ exists f,
       files a = [f]
       /\ In (EvIsFile (os_path_join (basedir a) f) true)
             (transcript_of (run (task Formal input)
                                 (sim 0 ["/run/model.smt2"]))).
Proof.
  cbv zeta.
  apply (@artifact_names_found_file SimWorld SimCtxt Formal
           (mkInput "job" "/run" one_sv_source
                    (formal_params (Some "cpu") None None None))
           (sim 0 ["/run/model.smt2"])).
  vm_compute. left; reflexivity.
Defined.

(** Prefixes. *)
Lemma prefix_nil (b : string) : String.prefix "" b = true.
Proof. now destruct b. Qed.

Lemma prefix_app (a b : string) : String.prefix a (a ++ b) = true.
Proof.
  induction a as [|c a IH]; [apply prefix_nil|].
  cbn [append String.prefix]. destruct (ascii_dec c c); congruence.
Qed.

Lemma prefix_refl (a : string) : String.prefix a a = true.
Proof.
  induction a as [|c a IH]; [reflexivity|].
  cbn [String.prefix]. destruct (ascii_dec c c); congruence.
Qed.

Lemma prefix_app_r (x c d : string) :
  String.prefix x c = true -> String.prefix x (c ++ d) = true.
Proof.
  revert c; induction x as [|a x IH]; intros c H; [apply prefix_nil|].
  destruct c as [|b c]; [discriminate H|].
  cbn [append String.prefix] in *. destruct (ascii_dec a b); [|discriminate H].
  now apply IH.
Qed.

Lemma prefix_add_if (x c f : string) (b : bool) :
  String.prefix x c = true -> String.prefix x (add_if b c f) = true.
Proof. intros H. destruct b; cbn [add_if]; [now apply prefix_app_r|exact H]. Qed.

Lemma os_path_join_relative (rd f : string) :
  startswith "/" f = false ->
  os_path_join rd f
  = (rd ++ (if nonempty rd && negb (endswith_sep rd) then "/" else "") ++ f)%string.
Proof.
  intros H. unfold os_path_join. rewrite H.
  destruct (nonempty rd); cbn [negb orb andb]; [|reflexivity].
  destruct (endswith_sep rd); reflexivity.
Qed.

(** X15.  The script path and the output path of every variant are the run
    directory, a separator when the run directory is not empty and does not
    end with one, and the file name: no parameter value makes the file name
    absolute, so both paths always begin with the run directory (unlike the
    paths of member files, X2). *)
Theorem paths_begin_with_rundir :
  forall (v : Variant) (p : Params) (rd : string),
    let sep := if nonempty rd && negb (endswith_sep rd) then "/" else "" in
    os_path_join rd (script_name v) = (rd ++ sep ++ script_name v)%string
    /\ out_path_of v p rd = (rd ++ sep ++ out_file_of v p)%string
    /\ String.prefix rd (os_path_join rd (script_name v)) = true
    /\ String.prefix rd (out_path_of v p rd) = true.
Proof.
  intros v p rd sep.
  assert (Hs : os_path_join rd (script_name v)
               = (rd ++ sep ++ script_name v)%string)
    by (apply os_path_join_relative; now destruct v).
  assert (Ho : out_path_of v p rd = (rd ++ sep ++ out_file_of v p)%string)
    by (destruct v; apply os_path_join_relative; reflexivity).
  rewrite Hs, Ho. repeat split; apply prefix_app.
Qed.

(* ------------------------------------------------------------------ *)
(** ** The order of the optional flags *)

Lemma filter_if (A : Type) (f : A -> bool) (b : bool) (l1 l2 : list A) :
  filter f (if b then l1 else l2) = if b then filter f l1 else filter f l2.
Proof. now destruct b. Qed.

Lemma filter_none (A : Type) (f : A -> bool) (l : list A) :
  forallb (fun x => negb (f x)) l = true -> filter f l = [].
Proof.
  induction l as [|x l IH]; [reflexivity|].
  cbn [forallb filter]. intros H. apply andb_prop in H. destruct H as [Hx Hl].
  destruct (f x); [discriminate Hx|auto].
Qed.

Lemma flags_on_cons (g : string * FlagParam -> bool) (e : string * FlagParam)
    (l : list (string * FlagParam)) :
  map fst (filter g (e :: l))
  = (if g e then [fst e] else []) ++ map fst (filter g l).
Proof. cbn [filter]. now destruct (g e). Qed.

(** Evaluate [is_flag_of] on the closed words of the goal. *)
Ltac eval_is_flag :=
  repeat match goal with
  | |- context [is_flag_of ?v ?s] =>
      let r := eval vm_compute in (is_flag_of v s) in
      lazymatch r with
      | true => change (is_flag_of v s) with true
      | false => change (is_flag_of v s) with false
      end
  end.

(** X17.  Under the same proviso as for C3 (the strings the caller supplies
    for interpolation contain no word of the flag table), the optional
    flags found in the flag-carrying directives of a variant, read from left
    to right, are exactly the flags of the table whose test succeeds, each
    once and in the order of the table. *)
Theorem flags_in_table_order :
  forall (v : Variant) (p : Params) (rd : string),
    no_flag_words v p rd = true ->
    filter (is_flag_of v) (flat_map words (flag_directives v p rd))
    = flags_on v p.
Proof.
  intros v p rd Hclean. unfold no_flag_words in Hclean.
  unfold flags_on.
  destruct v; cbn [optional_flags flag_directives flat_map interpolated forallb]
                in *;
    rewrite ?app_nil_r;
    rewrite ?words_Synth, ?words_Ice40, ?words_Xilinx, ?words_Lattice,
      ?words_Gowin, ?words_Ice40_flags, ?words_Xilinx_flags,
      ?words_Lattice_flags, ?words_Gowin_flags, ?words_smt2, ?words_hierarchy;
    rewrite ?flags_on_cons; cbn [fst snd flag_on filter map];
    repeat match type of Hclean with
      | (_ && _) = true =>
          let H := fresh "Hc" in
          apply andb_prop in Hclean; destruct Hclean as [H Hclean];
          apply filter_none in H
      end;
    split_format;
    repeat (progress (cbn [app filter]; rewrite ?filter_app, ?filter_if;
                      eval_is_flag; cbv iota;
                      repeat match goal with
                        | H : filter _ ?l = [] |- context [filter _ ?l] =>
                            rewrite H
                        end));
    rewrite ?app_nil_r, <- ?app_assoc; try reflexivity.
Qed.

Lemma flags_in_table_order_witness :
  filter (is_flag_of Xilinx)
         (flat_map words
            (flag_directives Xilinx
               (some_params (Some "cpu") None (Some true) (Some true) None)
               "/run"))
  = ["-top"; "-flatten"; "-dff"; "-json"].
Proof.
  apply (eq_trans
           (@flags_in_table_order Xilinx
              (some_params (Some "cpu") None (Some true) (Some true) None)
              "/run" eq_refl)).
  reflexivity.
Defined.

(* ------------------------------------------------------------------ *)
(** ** Formats, and falsy parameters *)

(** X18.  In every variant but the formal one, the artifact of a run
    carries its format twice, consistently: its single file is
    [netlist.<f>] and its first attribute is [format=<f>], where [f] is the
    output format parameter, or [json] when that parameter is absent or
    empty (in the raw-script variant an artifact is produced only for a
    non-empty parameter, and [f] is that parameter). *)
Theorem artifact_file_matches_format :
  forall (W : Type) (C : Ctxt W) (v : Variant) (input : TaskDataInput)
         (w : W) (a : FileSet),
    v <> Formal ->
    In a (output (result_of (run (task v input) w))) ->
    exists f rest,
      files a = [("netlist." ++ f)%string]
      /\ attributes a = ("format=" ++ f)%string :: rest
      /\ f = py_or (output_format (params input))
                   (match v with RawScript => "" | _ => "json" end)
      /\ (v = RawScript -> output_format (params input) = Some f /\ f <> "").
Proof.
  intros W C v input w a Hv Hin.
  destruct (run_output v input w) as [[Hf Ho]|[_ Ho]]; rewrite Ho in Hin;
    [|destruct Hin].
  destruct Hin as [<-|[]].
  apply run_isfile_path in Hf. destruct Hf as (_ & Hg & _ & _).
  unfold artifact_of; cbn [files attributes].
  destruct v; try congruence;
    cbn [out_file_of format_tag target_tags app];
    do 2 eexists; (split; [reflexivity|]); (split; [reflexivity|]);
    (split; [reflexivity|]); try discriminate.
  intros _. cbn [gate] in Hg. unfold script_format, py_or in *.
  destruct (output_format (params input)) as [[|c s]|]; try discriminate Hg.
  split; [reflexivity|discriminate].
Qed.

Lemma artifact_file_matches_format_witness :
  let input := mkInput "t" "/run" one_sv_source no_params in
  let a := mkFileSet "t" "yosysNetlist" "/run" ["netlist.json"]
                     ["format=json"; "target=gowin"] in
  exists f rest,
    files a = [("netlist." ++ f)%string]
    /\ attributes a = ("format=" ++ f)%string :: rest
    /\ f = py_or (output_format (params input)) "json"
    /\ (Gowin = RawScript -> output_format (params input) = Some f /\ f <> "").
Proof.
  cbv zeta.
  apply (@artifact_file_matches_format SimWorld SimCtxt Gowin
           (mkInput "t" "/run" one_sv_source no_params)
           (sim 0 ["/run/netlist.json"])).
  - discriminate.
  - vm_compute. left; reflexivity.
Defined.

Lemma truthy_norm_flag (o : option bool) : truthy (norm_flag o) = truthy o.
Proof. now destruct o as [[]|]. Qed.

Lemma truthy_norm_str (o : option string) :
  truthy_str (norm_str o) = truthy_str o.
Proof. now destruct o as [[|c s]|]. Qed.

Lemma py_or_norm_str (o : option string) (d : string) :
  py_or (norm_str o) d = py_or o d.
Proof. now destruct o as [[|c s]|]. Qed.

Lemma add_top_norm (o : option string) (cmd : string) :
  add_if (truthy_str (norm_str o)) cmd (" -top " ++ fmt (norm_str o))
  = add_if (truthy_str o) cmd (" -top " ++ fmt o).
Proof. now destruct o as [[|c s]|]. Qed.

Lemma list_or_empty_norm (o : option (list string)) :
  list_or_empty (norm_list o) = list_or_empty o.
Proof. now destruct o as [[|x l]|]. Qed.

Lemma top_attr_norm (p : Params) : top_attr (normalize p) = top_attr p.
Proof.
  unfold top_attr, normalize; cbn [top]. now destruct (top p) as [[|c s]|].
Qed.

Lemma netlist_format_norm (p : Params) :
  netlist_format (normalize p) = netlist_format p.
Proof. unfold netlist_format, normalize; cbn. apply py_or_norm_str. Qed.

Lemma script_format_norm (p : Params) :
  script_format (normalize p) = script_format p.
Proof. unfold script_format, normalize; cbn. apply py_or_norm_str. Qed.

Lemma netlist_path_norm (p : Params) (rd : string) :
  netlist_path (normalize p) rd = netlist_path p rd.
Proof. unfold netlist_path, netlist_file. now rewrite netlist_format_norm. Qed.

Ltac norm_params :=
  rewrite ?netlist_path_norm, ?netlist_format_norm, ?script_format_norm,
    ?top_attr_norm;
  unfold normalize;
  cbn [top output_format device family flatten nofsm noabc retime dff nocarry
       nobram dsp nodsp noiopad noclkbuf abc9 bv mem wires read_rtl script
       args];
  rewrite ?truthy_norm_flag, ?py_or_norm_str, ?add_top_norm,
    ?list_or_empty_norm.

Lemma layout_norm (v : Variant) (c : Classified) (p : Params) (rd : string) :
  layout v c (normalize p) rd = layout v c p rd.
Proof.
  destruct c as [[sources incdirs] libs].
  destruct v; cbn [layout family_synth_cmd];
    unfold generic_write, supported, Synth_synth_cmd, SynthIce40_synth_cmd,
      SynthXilinx_synth_cmd, SynthLattice_synth_cmd, SynthGowin_synth_cmd,
      SynthIce40_flags, SynthXilinx_flags, SynthLattice_flags,
      SynthGowin_flags, FormalPrepare_hierarchy, FormalPrepare_smt2_cmd,
      ice40_device, xilinx_family, lattice_family; cbv zeta;
    norm_params; try reflexivity.
  unfold normalize; cbn [top]. now destruct (top p) as [[|c s]|].
Qed.

(** X19.  A falsy value of an optional parameter behaves as an absent one:
    replacing every [False] flag, an empty [top], [output_format], [device]
    or [family] and an empty [args] list by [None] (the script body of the
    raw-script variant, which is not optional, is left as it is) changes
    nothing in any run of any variant, neither the script written, nor the
    command, nor the existence test, nor the result. *)
Theorem falsy_is_absent :
  forall (W : Type) (C : Ctxt W) (v : Variant) (input : TaskDataInput)
         (w : W),
    run (task v (with_params (normalize (params input)) input)) w
    = run (task v input) w.
Proof.
  intros W C v input w. rewrite !run_task.
  unfold with_params; cbn [params rundir inputs name].
  rewrite !script_of_layout, layout_norm.
  assert (Hg : gate v (normalize (params input)) = gate v (params input))
    by (destruct v; cbn [gate]; now rewrite ?script_format_norm).
  assert (Ho : out_path_of v (normalize (params input)) (rundir input)
               = out_path_of v (params input) (rundir input))
    by (destruct v; cbn [out_path_of];
        now rewrite ?script_format_norm, ?netlist_path_norm).
  assert (Ha : artifact_of v (mkInput (name input) (rundir input)
                                      (inputs input)
                                      (normalize (params input)))
               = artifact_of v input).
  { unfold artifact_of; cbn [name rundir params].
    destruct v; cbn [out_file_of format_tag target_tags kind_tag];
      unfold netlist_file, ice40_device, xilinx_family, lattice_family;
      norm_params; reflexivity. }
  now rewrite Hg, Ho, Ha.
Qed.

(* ------------------------------------------------------------------ *)
(** ** Runs whose script may fail to be written *)

Section RunsIO.

Context {W : Type} {C : CtxtIO W}.

(** A task either stops at [open], before anything else has happened, or
    behaves as [run] says in the same world. *)
Lemma run_io_task (v : Variant) (input : TaskDataInput) (w : W) :
  let sp := os_path_join (rundir input) (script_name v) in
  let body := content (script_of v (_collect_rtl (inputs input))
                                 (params input) (rundir input)) in
  let r := @run W (writable_ctxt C) _ (task v input) w in
  run_io (task v input) w
  = if fst (io_open_write sp body w)
    then (inl (result_of r), snd (fst r), transcript_of r)
    else (inr (OSError sp), snd (io_open_write sp body w), []).
Proof.
  destruct v; cbv zeta;
    cbn [task script_name script_of];
    unfold Synth, SynthIce40, SynthXilinx, SynthLattice, SynthGowin,
      FormalPrepare, Script, open_write, ctxt_exec, os_path_isfile;
    cbv zeta; cbn [bind run run_io];
    cbn [fs_write exec isfile writable_ctxt];
    match goal with |- context [io_open_write ?q ?b ?w0] =>
      destruct (io_open_write q b w0) as [[|] w1] end;
    cbn [fst snd]; try reflexivity;
    match goal with |- context [io_exec ?c ?l ?w0] =>
      destruct (io_exec c l w0) as [st w2] end;
    (destruct (st =? 0)%Z; cbn [andb bind run run_io]; [|reflexivity]);
    try destruct (nonempty (script_format (params input)));
    cbn [bind run run_io]; try reflexivity;
    match goal with |- context [io_isfile ?q ?x] =>
      destruct (io_isfile q x) end;
    reflexivity.
Qed.

End RunsIO.

(** X12.  Every run, of every variant and in every world, begins with the
    attempt to write the script to [<rundir>/<script name>].  When this
    raises (a missing or unwritable run directory) the exception is the
    outcome of the run: the tool is not run, no existence test is made and
    there is no result.  When the script is written, the tool is then run
    once, as [yosys -l <log> <script path>] with the same log file name,
    on the path just written; then, only if the tool exited with status 0
    (and, in the raw-script variant, an output format was given), the
    existence of the predicted output file is tested, once; the run returns
    a result, whose status is the exit status of the tool. *)
Theorem run_three_phases :
  forall (W : Type) (C : CtxtIO W) (v : Variant) (input : TaskDataInput)
         (w : W),
    let p := params input in
    let sp := os_path_join (rundir input) (script_name v) in
    let body := content (script_of v (_collect_rtl (inputs input)) p
                                   (rundir input)) in
    (fst (io_open_write sp body w) = false ->
     run_io (task v input) w
     = (inr (OSError sp), snd (io_open_write sp body w), []))
    /\ (fst (io_open_write sp body w) = true ->
        exists st found res,
          fst (fst (run_io (task v input) w)) = inl res
          /\ status res = st
          /\ snd (run_io (task v input) w)
             = EvOpenWrite sp body
               :: EvExec ["yosys"; "-l"; log_name v; sp] (log_name v) st
               :: (if (st =? 0)%Z && gate v p
                   then [EvIsFile (out_path_of v p (rundir input)) found]
                   else [])).
Proof.
  intros W C v input w p sp body. subst p sp body.
  rewrite run_io_task. cbv zeta.
  split; intros ->; [reflexivity|].
  rewrite (@run_task W (writable_ctxt C)).
  unfold transcript_of, result_of; cbn [fst snd status].
  do 3 eexists. repeat split; reflexivity.
Qed.

Lemma run_three_phases_witness :
  let input := mkInput "t" "/run" one_sv_source no_params in
  run_io (task Generic input) (mkSimIO (sim 0 ["/run/netlist.json"]) false)
  = (inr (OSError "/run/synth.ys"),
     mkSimIO (sim 0 ["/run/netlist.json"]) false, [])
  /\ exists st found res,
       fst (fst (run_io (task Generic input)
                        (mkSimIO (sim 0 ["/run/netlist.json"]) true)))
       = inl res
       /\ status res = st
       /\ snd (run_io (task Generic input)
                      (mkSimIO (sim 0 ["/run/netlist.json"]) true))
          = EvOpenWrite "/run/synth.ys"
              (content (script_of Generic (_collect_rtl one_sv_source)
                                  no_params "/run"))
            :: EvExec ["yosys"; "-l"; "synth.log"; "/run/synth.ys"]
                      "synth.log" st
            :: (if (st =? 0)%Z && gate Generic no_params
                then [EvIsFile "/run/netlist.json" found]
                else []).
Proof.
  cbv zeta. split.
  - apply (proj1 (@run_three_phases SimIOWorld SimIOCtxt Generic
                    (mkInput "t" "/run" one_sv_source no_params)
                    (mkSimIO (sim 0 ["/run/netlist.json"]) false))).
    reflexivity.
  - apply (proj2 (@run_three_phases SimIOWorld SimIOCtxt Generic
                    (mkInput "t" "/run" one_sv_source no_params)
                    (mkSimIO (sim 0 ["/run/netlist.json"]) true))).
    reflexivity.
Defined.

(* ------------------------------------------------------------------ *)
(** ** What the script is determined by *)




(* ------------------------------------------------------------------ *)
(** ** The device or family of a target variant *)

Lemma target_value_cases (v : Variant) (p : Params) :
  v = Ice40 \/ v = Xilinx \/ v = Lattice ->
  (forall s, target_param v p = Some s -> s <> "" -> target_value v p = s)
  /\ (truthy_str (target_param v p) = false ->
      target_value v p = target_default v).
Proof.
  intros Hv.
  assert (E : target_value v p = py_or (target_param v p) (target_default v))
    by (destruct Hv as [-> | [-> | ->]]; reflexivity).
  rewrite E. unfold py_or, truthy_str. split.
  - intros s -> Hs. destruct s; [congruence|reflexivity].
  - destruct (target_param v p) as [s|]; [|reflexivity]. now intros ->.
Qed.

Lemma target_head_prefix (v : Variant) (p : Params) (path : string) :
  v = Ice40 \/ v = Xilinx \/ v = Lattice ->
  String.prefix (target_head v ++ target_value v p)
                (family_synth_cmd v p path) = true.
Proof.
  intros Hv.
  destruct Hv as [-> | [-> | ->]];
    cbn [target_value target_head family_synth_cmd];
    unfold SynthIce40_synth_cmd, SynthXilinx_synth_cmd,
      SynthLattice_synth_cmd, SynthIce40_flags, SynthXilinx_flags,
      SynthLattice_flags; cbv zeta;
    repeat match goal with
      | |- context [netlist_format p =? ?s] =>
          destruct (netlist_format p =? s)
      end;
    try apply prefix_app_r;
    repeat apply prefix_add_if; apply prefix_refl.
Qed.

(** X16.  In the iCE40, Xilinx and Lattice variants, every run that
    produces an artifact names one device or family [d] twice,
    consistently: the script it wrote has the synthesis directive as one of
    its lines, and this directive begins with the directive name, the
    [-device] or [-family] flag and [d]; and the third attribute of the
    artifact, after the format and target tags, is [device=d] or
    [family=d].  [d] is the parameter when it is a non-empty string, and
    the default of the variant ([hx], [xc7], [ecp5]) when the parameter is
    absent or empty. *)
Theorem target_value_consistent :
  forall (W : Type) (C : Ctxt W) (v : Variant) (input : TaskDataInput)
         (w : W) (a : FileSet),
    v = Ice40 \/ v = Xilinx \/ v = Lattice ->
    In a (output (result_of (run (task v input) w))) ->
    let p := params input in
    let script := script_of v (_collect_rtl (inputs input)) p
                            (rundir input) in
    let directive := family_synth_cmd v p (netlist_path p (rundir input)) in
    exists d,
      writes (transcript_of (run (task v input) w))
      = [(os_path_join (rundir input) (script_name v), content script)]
      /\ In (directive ++ nl)%string script
      /\ String.prefix (target_head v ++ d) directive = true
      /\ nth_error (attributes a) 1
         = Some (match v with
                 | Ice40 => "target=ice40"
                 | Xilinx => "target=xilinx"
                 | _ => "target=lattice"
                 end)
      /\ nth_error (attributes a) 2 = Some (target_key v ++ d)%string
      /\ (forall s, target_param v p = Some s -> s <> "" -> d = s)
      /\ (truthy_str (target_param v p) = false -> d = target_default v).
Proof.
  intros W C v input w a Hv Hin p script directive.
  assert (Ha : a = artifact_of v input).
  { destruct (run_output v input w) as [[_ Ho]|[_ Ho]]; rewrite Ho in Hin.
    - destruct Hin as [Hin|[]]. now symmetry.
    - destruct Hin. }
  subst a. exists (target_value v p).
  destruct (@target_value_cases v p Hv) as [Hs Hd].
  split; [apply run_writes|]. split; [|split; [|split; [|split]]].
  - subst script directive. rewrite script_of_layout.
    destruct (_collect_rtl (inputs input)) as [[sources incdirs] libs].
    destruct Hv as [-> | [-> | ->]]; cbn [layout];
      apply in_or_app; right; apply in_or_app; left; left; reflexivity.
  - apply target_head_prefix; exact Hv.
  - destruct Hv as [-> | [-> | ->]]; reflexivity.
  - destruct Hv as [-> | [-> | ->]]; reflexivity.
  - split; assumption.
Qed.

Lemma target_value_consistent_witness :
  let input :=
    mkInput "t" "/run" one_sv_source
            (some_params (Some "cpu") None None None None) in
  let a := mkFileSet "t" "yosysNetlist" "/run" ["netlist.json"]
                     ["format=json"; "target=xilinx"; "family=xc7";
                      "top=cpu"] in
  In a (output (result_of (run (task Xilinx input)
                               (sim 0 ["/run/netlist.json"]))))
  /\ exists d,
       String.prefix ("synth_xilinx -family " ++ d)
                     "synth_xilinx -family xc7 -top cpu -json /run/netlist.json"
       = true
       /\ nth_error (attributes a) 2 = Some ("family=" ++ d)%string
       /\ d = "xc7".
Proof.
  cbv zeta.
  assert (Hin : In (mkFileSet "t" "yosysNetlist" "/run" ["netlist.json"]
                      ["format=json"; "target=xilinx"; "family=xc7";
                       "top=cpu"])
                   (output (result_of (run (task Xilinx
                      (mkInput "t" "/run" one_sv_source
                         (some_params (Some "cpu") None None None None)))
                      (sim 0 ["/run/netlist.json"])))))
    by (vm_compute; left; reflexivity).
  split; [exact Hin|].
  destruct (@target_value_consistent SimWorld SimCtxt Xilinx _ _ _
              (or_intror (or_introl eq_refl)) Hin)
    as (d & _ & _ & Hp & _ & Hn & _ & Hd).
  exists d. repeat split; [exact Hp|exact Hn|].
  apply Hd. reflexivity.
Defined.
